(** * The asynchronous-value bridge and the dynamic type dispatcher

    A shallow embedding of
      - [jsbridge/src/main/jni/java-types/Object.cpp]
        ([Object::toJava], [Object::fromJava], [Object::pop], [Object::push],
        [Object::newJavaType]) and
      - [jsbridge/src/main/jni/java-types/Deferred_quickjs.cpp]
        ([Deferred::toJava], [Deferred::fromJava], [Deferred::completeJsPromise]
        and the three native callbacks of the anonymous namespace).

    The C++ code is stateful: it talks to the script engine (QuickJS or
    Duktape), to the Java virtual machine through JNI, and it keeps a
    function-local static counter.  All of that is made explicit state here,
    threaded through a small state monad whose second outcome is a crash
    (a failed [assert] or a wild pointer).  Everything the two files call but
    do not define (the engine, the host, the converters of the other Java
    types) is collected in an environment record and stays a parameter of
    every definition. *)

From Stdlib Require Import ZArith Lia.
From stdpp Require Import base option list sorting gmap strings pretty.

Set Default Proof Using "Type".

(** ** Java type identifiers *)

(** Modelled from the spec: the header [JavaTypeId.h] that declares the
    enumeration is not part of the two source files.  The members are the ones
    the sources name ([Object.cpp] lines 35 and 172-189,
    [Deferred_quickjs.cpp] line 101), [Unknown] from the closed enumeration of
    the type dispatcher, and one constructor that stands for every further
    member of the header. *)
Module JavaTypeId.
Inductive t : Type :=
| Unknown
| Boolean | Int | Long | Float | Double
| String
| BoxedBoolean | BoxedInt | BoxedLong | BoxedFloat | BoxedDouble
| Object
| JsonObjectWrapper
| Deferred
| Other (n : nat).

#[global] Instance eq_dec : EqDecision t.
Proof. solve_decision. Defined.
End JavaTypeId.

(** ** Converters: the classes derived from [JavaType] *)

Module JavaTypes.
(** One constructor per converter class the sources instantiate.
    [BoxedPrimitive] and [Deferred] own their component converter. *)
Inductive JavaType : Type :=
| Boolean | Integer | Long | Float | Double
| BoxedPrimitive (primitive : JavaType)
| String
| JsonObjectWrapper
| Object
| Deferred (componentType : JavaType).

#[global] Instance eq_dec : EqDecision JavaType.
Proof. solve_decision. Defined.
End JavaTypes.

Abbreviation JavaType := JavaTypes.JavaType.

(** ** Host (JNI) values *)

Definition jobject := nat.

(** [JniLocalRef<jobject>]: [None] is the null reference. *)
Definition JniLocalRef := option jobject.

Definition isNull (r : JniLocalRef) : bool :=
  match r with None => true | Some _ => false end.

(** The C++ [JValue]: [JValue()] holds nothing, [JValue(ref)] an object
    reference, and the primitive converters store a raw [jvalue] word. *)
Inductive JValue : Type :=
| JValue_empty
| JValue_ref (r : JniLocalRef)
| JValue_prim (bits : Z).

Definition getLocalRef (value : JValue) : JniLocalRef :=
  match value with
  | JValue_ref r => r
  | _ => None
  end.

(** Arguments of a call into the Java [JsBridge] object. *)
Inductive JArg : Type :=
| ArgRef (r : JniLocalRef)
| ArgValue (v : JValue)
| ArgString (s : string).

(** ** Script (QuickJS) values *)

(** One constructor per value tag.  The payload of a float is kept as its bit
    pattern: only the tag matters to the dispatcher. *)
Inductive JSValue : Type :=
| JS_UNDEFINED
| JS_NULL
| JS_EXCEPTION
| JS_UNINITIALIZED
| JS_BOOL (b : bool)
| JS_INT (n : Z)
| JS_FLOAT64 (bits : Z)
| JS_STRING (s : string)
| JS_SYMBOL (atom : nat)
| JS_BIG_INT (n : Z)
| JS_OBJECT (p : nat).

Definition JS_IsUndefined (v : JSValue) : bool :=
  match v with JS_UNDEFINED => true | _ => false end.
Definition JS_IsNull (v : JSValue) : bool :=
  match v with JS_NULL => true | _ => false end.
Definition JS_IsException (v : JSValue) : bool :=
  match v with JS_EXCEPTION => true | _ => false end.
Definition JS_IsBool (v : JSValue) : bool :=
  match v with JS_BOOL _ => true | _ => false end.
Definition JS_IsNumber (v : JSValue) : bool :=
  match v with JS_INT _ | JS_FLOAT64 _ => true | _ => false end.
Definition JS_IsString (v : JSValue) : bool :=
  match v with JS_STRING _ => true | _ => false end.
Definition JS_IsObject (v : JSValue) : bool :=
  match v with JS_OBJECT _ => true | _ => false end.

(** The three native functions of the anonymous namespace of
    [Deferred_quickjs.cpp]. *)
Inductive CFunction : Type :=
| onPromiseFulfilled_fn
| onPromiseRejected_fn
| promiseFunction_fn.

(** The struct [OnPromisePayload]. *)
Record OnPromisePayload : Type := mkOnPromisePayload {
  javaDeferred : JniLocalRef;
  componentType : JavaType;
}.

(** What [QuickJsUtils::createCppPtrValue] wraps into a script object. *)
Inductive CppPtr : Type :=
| PtrOnPromisePayload (payload : OnPromisePayload)
| PtrJavaType (t : JavaType).

(** Class of a script object, as far as the bridge can tell them apart. *)
Inductive JSClass : Type :=
| JS_CLASS_OBJECT
| JS_CLASS_FUNCTION
| JS_CLASS_C_FUNCTION_DATA (func : CFunction) (data : JSValue)
| JS_CLASS_CPP_PTR (ptr : CppPtr).

(** A script object: its class and the properties visible on it (own and
    inherited alike, which is what [JS_GetPropertyStr] and [JS_HasProperty]
    see). *)
Record JSObject : Type := mkJSObject {
  obj_class : JSClass;
  obj_props : gmap string JSValue;
}.

(** ** The state *)

(** What the engine and the host share with the bridge and may change behind
    its back: the script heap, the engine's pending exception, and the pending
    JNI exception. *)
Record World : Type := mkWorld {
  js_heap : gmap nat JSObject;
  js_next : nat;
  js_global : nat;
  js_exception : option JSValue;
  jni_pending : bool;
}.

(** What the bridge is seen to do. *)
Inductive Event : Type :=
| EvJniCall (method signature : string) (args : list JArg)
| EvRethrowJniException
| EvThrowTypeException (message : string) (inScript : bool)
| EvLog (warning : bool) (message : string)
| EvJSCall (func this : JSValue) (args : list JSValue)
| EvJSCallConstructor (ctor : JSValue) (args : list JSValue).

(** The whole state: the world, the static local [promiseCount] of
    [Deferred::fromJava] (a C++ [int]), and the trace of events. *)
Record State : Type := mkState {
  world : World;
  promiseCount : Z;
  trace : list Event;
}.

Definition with_world (w : World) (st : State) : State :=
  mkState w (promiseCount st) (trace st).
Definition with_promiseCount (n : Z) (st : State) : State :=
  mkState (world st) n (trace st).
Definition with_event (e : Event) (st : State) : State :=
  mkState (world st) (promiseCount st) (trace st ++ [e]).

Definition with_heap (h : gmap nat JSObject) (w : World) : World :=
  mkWorld h (js_next w) (js_global w) (js_exception w) (jni_pending w).
Definition with_js_exception (e : option JSValue) (w : World) : World :=
  mkWorld (js_heap w) (js_next w) (js_global w) e (jni_pending w).
Definition with_jni_pending (b : bool) (w : World) : World :=
  mkWorld (js_heap w) (js_next w) (js_global w) (js_exception w) b.

(** ** The environment *)

(** Everything the two files use and do not define.  The engine and the
    converters act on the world only; the host answers a call from the call
    and the trace so far. *)
Record Env : Type := mkEnv {
  (** whether [assert] is compiled out *)
  NDEBUG : bool;
  (** [JavaTypeId.cpp] *)
  getJavaTypeIdByJavaName : string → JavaTypeId.t;
  (** [getObjectClass] followed by [Class.getName] *)
  getObjectClassName : jobject → string;
  (** a method of the Java [JsBridge]: the reference it returns and whether
      it leaves a Java exception pending *)
  jniCall : list Event → string → string → list JArg → JniLocalRef * bool;
  (** [JsBridgeContext::getJavaExceptionForJsError]: the Java exception it
      builds from the engine's pending exception *)
  javaExceptionForJsError : World → JniLocalRef * World;
  (** what [JsBridgeContext::rethrowJniException] and
      [JsBridgeContext::throwTypeException] do to the world *)
  rethrowJni : World → World;
  typeException : string → bool → World → World;
  (** [toJava] and [fromJava] of the converters defined in other files *)
  extern_toJava : JavaType → JSValue → bool → World → JValue * World;
  extern_fromJava : JavaType → JValue → bool → World → JSValue * World;
  (** the engine running a callable, and a constructor *)
  engine_call : JSValue → JSValue → list JSValue → World → JSValue * World;
  engine_construct : JSValue → list JSValue → World → JSValue * World;
}.

(** ** The monad *)

Inductive Outcome (A : Type) : Type :=
| Done (a : A) (st : State)
| Crash (st : State).
Arguments Done {A} a st.
Arguments Crash {A} st.

Definition M (A : Type) : Type := State → Outcome A.

#[global] Instance M_ret : MRet M := fun A a st => Done a st.

#[global] Instance M_bind : MBind M := fun A B k m st =>
  match m st with
  | Done a st' => k a st'
  | Crash st' => Crash st'
  end.

Definition final_state {A} (o : Outcome A) : State :=
  match o with Done _ st => st | Crash st => st end.

Definition crashed {A} (o : Outcome A) : bool :=
  match o with Done _ _ => false | Crash _ => true end.

(** Run a step of the world (the engine, a converter of another file). *)
Definition liftW {A} (f : World → A * World) : M A :=
  fun st => let '(a, w) := f (world st) in Done a (with_world w st).

Definition getW {A} (f : World → A) : M A :=
  fun st => Done (f (world st)) st.

Definition modifyW (f : World → World) : M unit :=
  fun st => Done tt (with_world (f (world st)) st).

Definition emit (e : Event) : M unit :=
  fun st => Done tt (with_event e st).

Definition crash {A} : M A := fun st => Crash st.

(** ** The C++ [int] *)

Definition INT_MAX : Z := 2147483647.
Definition INT_MIN : Z := -2147483648.

(** The value an [int] register holds after an arithmetic result [n]: two's
    complement wrap-around, which is what the targets of the library (ARM and
    x86 Android) compute where the C++ standard leaves signed overflow
    undefined. *)
Definition wrap_int (n : Z) : Z :=
  ((n - INT_MIN) `mod` 4294967296 + INT_MIN)%Z.

(** [std::to_string(int)]: decimal digits, a leading minus sign for negative
    numbers. *)
Definition to_string (n : Z) : string := pretty n.

(** ** Constants of [Deferred_quickjs.cpp] *)

Definition PROMISE_OBJECT_GLOBAL_NAME_PREFIX : string :=
  "__javaTypes_deferred_promiseobject_".

(** ["\xff\xff" "promise_type"] *)
Definition PROMISE_COMPONENT_TYPE_PROP_NAME : string :=
  String (Ascii.ascii_of_nat 255)
    (String (Ascii.ascii_of_nat 255) "promise_type").

Definition sig_createCompletableDeferred : string :=
  "()Lkotlinx/coroutines/CompletableDeferred;".
Definition sig_resolveDeferred : string :=
  "(Lkotlinx/coroutines/CompletableDeferred;Ljava/lang/Object;)V".
(** the signature [Deferred::toJava] passes for [rejectDeferred] ... *)
Definition sig_rejectDeferred_Object : string :=
  "(Lkotlinx/coroutines/CompletableDeferred;Ljava/lang/Object;)V".
(** ... and the one [onPromiseRejected] passes for the same method *)
Definition sig_rejectDeferred_JsException : string :=
  "(Lkotlinx/coroutines/CompletableDeferred;Lde/prosiebensat1digital/oasisjsbridge/JsException;)V".
Definition sig_setUpJsPromise : string :=
  "(Ljava/lang/String;Lkotlinx/coroutines/Deferred;)V".

(** ** Engine and host primitives *)

Section Bridge.
Variable env : Env.

(** *** Assertions and logging *)

(** [assert(b)]: aborts the process unless compiled out. *)
Definition assert (b : bool) : M unit :=
  if NDEBUG env || b then mret tt else crash.

Definition alog (message : string) : M unit := emit (EvLog false message).
Definition alog_warn (message : string) : M unit := emit (EvLog true message).

(** *** The script engine *)

Definition lookup_object (v : JSValue) (w : World) : option JSObject :=
  match v with
  | JS_OBJECT p => js_heap w !! p
  | _ => None
  end.

(** [JS_IsFunction(ctx, v)] *)
Definition is_function (v : JSValue) (w : World) : bool :=
  match lookup_object v w with
  | Some o => match obj_class o with
              | JS_CLASS_FUNCTION | JS_CLASS_C_FUNCTION_DATA _ _ => true
              | _ => false
              end
  | None => false
  end.
Definition JS_IsFunction (v : JSValue) : M bool := getW (is_function v).

(** [QuickJsUtils::hasPropertyStr(v, name)] *)
Definition has_property (v : JSValue) (name : string) (w : World) : bool :=
  match lookup_object v w with
  | Some o => bool_decide (is_Some (obj_props o !! name))
  | None => false
  end.
Definition hasPropertyStr (v : JSValue) (name : string) : M bool :=
  getW (has_property v name).

(** [JS_GetPropertyStr(ctx, v, name)]: [undefined] for a missing property. *)
Definition get_property (v : JSValue) (name : string) (w : World) : JSValue :=
  match lookup_object v w with
  | Some o => default JS_UNDEFINED (obj_props o !! name)
  | None => JS_UNDEFINED
  end.
Definition JS_GetPropertyStr (v : JSValue) (name : string) : M JSValue :=
  getW (get_property v name).

(** [JS_SetPropertyStr(ctx, v, name, val)]; the sources ignore its result. *)
Definition set_property (v : JSValue) (name : string) (val : JSValue)
    (w : World) : World :=
  match v with
  | JS_OBJECT p =>
      match js_heap w !! p with
      | Some o =>
          with_heap
            (<[p := mkJSObject (obj_class o) (<[name := val]> (obj_props o))]>
               (js_heap w)) w
      | None => w
      end
  | _ => w
  end.
Definition JS_SetPropertyStr (v : JSValue) (name : string) (val : JSValue)
    : M unit :=
  modifyW (set_property v name val).

(** Allocation of a script object of a given class, without properties. *)
Definition alloc (c : JSClass) (w : World) : JSValue * World :=
  (JS_OBJECT (js_next w),
   mkWorld (<[js_next w := mkJSObject c ∅]> (js_heap w)) (S (js_next w))
           (js_global w) (js_exception w) (jni_pending w)).

Definition JS_NewObject : M JSValue := liftW (alloc JS_CLASS_OBJECT).

(** [JS_NewCFunctionData(ctx, func, length, magic, 1, &data)] *)
Definition JS_NewCFunctionData (func : CFunction) (data : JSValue)
    : M JSValue :=
  liftW (alloc (JS_CLASS_C_FUNCTION_DATA func data)).

(** [QuickJsUtils::createCppPtrValue(ptr, true)] *)
Definition createCppPtrValue (ptr : CppPtr) : M JSValue :=
  liftW (alloc (JS_CLASS_CPP_PTR ptr)).

(** [QuickJsUtils::getCppPtr<T>(v)]: reading a pointer out of a value that
    does not wrap one of type [T] is a wild pointer. *)
Definition cpp_ptr (v : JSValue) (w : World) : option CppPtr :=
  match lookup_object v w with
  | Some o => match obj_class o with
              | JS_CLASS_CPP_PTR ptr => Some ptr
              | _ => None
              end
  | None => None
  end.

Definition getCppPtr_OnPromisePayload (v : JSValue) : M OnPromisePayload :=
  ptr ← getW (cpp_ptr v);
  match ptr return M OnPromisePayload with
  | Some (PtrOnPromisePayload payload) => mret payload
  | _ => crash
  end.

Definition getCppPtr_JavaType (v : JSValue) : M JavaType :=
  ptr ← getW (cpp_ptr v);
  match ptr return M JavaType with
  | Some (PtrJavaType t) => mret t
  | _ => crash
  end.

Definition JS_GetGlobalObject : M JSValue :=
  getW (fun w => JS_OBJECT (js_global w)).

(** [JS_Throw(ctx, v)]: [v] becomes the pending exception. *)
Definition JS_Throw (v : JSValue) : M JSValue :=
  modifyW (with_js_exception (Some v));; mret JS_EXCEPTION.

(** [JS_ThrowTypeError]; the error object is kept as its message. *)
Definition JS_ThrowTypeError (message : string) : M JSValue :=
  JS_Throw (JS_STRING ("TypeError: " +:+ message)).

(** [JS_Call(ctx, func, this, argc, argv)]: the engine refuses a value
    that is not callable, and runs a callable one. *)
Definition JS_Call (func this : JSValue) (args : list JSValue) : M JSValue :=
  emit (EvJSCall func this args);;
  callable ← JS_IsFunction func;
  if callable : bool then liftW (engine_call env func this args)
  else JS_ThrowTypeError "not a function".

(** [JS_CallConstructor(ctx, ctor, argc, argv)] *)
Definition JS_CallConstructor (ctor : JSValue) (args : list JSValue)
    : M JSValue :=
  emit (EvJSCallConstructor ctor args);;
  callable ← JS_IsFunction ctor;
  if callable : bool then liftW (engine_construct env ctor args)
  else JS_ThrowTypeError "not a constructor".

(** *** The host *)

Definition hasPendingJniException : M bool := getW jni_pending.

(** [JsBridgeContext::rethrowJniException()]: the call is seen, what it
    does is the environment's. *)
Definition rethrowJniException : M unit :=
  emit EvRethrowJniException;; modifyW (rethrowJni env).

(** [JniContext::callJsBridgeObjectMethod(name, signature, args...)]: the
    call is seen, the host answers, an exception it raises becomes
    pending. *)
Definition callJsBridgeObjectMethod (name signature : string)
    (args : list JArg) : M JniLocalRef :=
  fun st =>
    let '(r, throws) := jniCall env (trace st) name signature args in
    Done r (with_world
              (with_jni_pending (jni_pending (world st) || throws) (world st))
              (with_event (EvJniCall name signature args) st)).

(** [JniContext::callJsBridgeVoidMethod(name, signature, args...)] *)
Definition callJsBridgeVoidMethod (name signature : string)
    (args : list JArg) : M unit :=
  callJsBridgeObjectMethod name signature args;; mret tt.

(** [JsBridgeContext::throwTypeException(message, inScript)]: the report
    is seen, how it reaches the crossing side is the environment's. *)
Definition throwTypeException (message : string) (inScript : bool) : M unit :=
  emit (EvThrowTypeException message inScript);;
  modifyW (typeException env message inScript).

(** [JsBridgeContext::getJavaExceptionForJsError()] *)
Definition getJavaExceptionForJsError : M JniLocalRef :=
  liftW (javaExceptionForJsError env).

(** *** Converters of the other files *)

Definition extern_toJava_M (t : JavaType) (v : JSValue) (inScript : bool)
    : M JValue :=
  liftW (extern_toJava env t v inScript).

Definition extern_fromJava_M (t : JavaType) (value : JValue) (inScript : bool)
    : M JSValue :=
  liftW (extern_fromJava env t value inScript).

(** ** [Object.cpp], QuickJS build *)

(** [JavaType *Object::newJavaType(const JniLocalRef<jobject> &)]:
    [None] is the [nullptr] of the default case. *)
Definition Object_newJavaType (jobj : jobject) : option JavaType :=
  let strName := getObjectClassName env jobj in
  let id := getJavaTypeIdByJavaName env strName in
  match id with
  | JavaTypeId.Boolean | JavaTypeId.BoxedBoolean =>
      Some (JavaTypes.BoxedPrimitive JavaTypes.Boolean)
  | JavaTypeId.Int | JavaTypeId.BoxedInt =>
      Some (JavaTypes.BoxedPrimitive JavaTypes.Integer)
  | JavaTypeId.Long | JavaTypeId.BoxedLong =>
      Some (JavaTypes.BoxedPrimitive JavaTypes.Long)
  | JavaTypeId.Float | JavaTypeId.BoxedFloat =>
      Some (JavaTypes.BoxedPrimitive JavaTypes.Float)
  | JavaTypeId.Double | JavaTypeId.BoxedDouble =>
      Some (JavaTypes.BoxedPrimitive JavaTypes.Double)
  | JavaTypeId.String => Some JavaTypes.String
  | JavaTypeId.JsonObjectWrapper => Some JavaTypes.JsonObjectWrapper
  | _ => None
  end.

(** [JValue Object::toJava(JSValueConst v, bool inScript) const] *)
Definition Object_toJava (v : JSValue) (inScript : bool) : M JValue :=
  if JS_IsUndefined v || JS_IsNull v then mret JValue_empty
  else if JS_IsBool v then
    extern_toJava_M (JavaTypes.BoxedPrimitive JavaTypes.Boolean) v inScript
  else if JS_IsNumber v then
    extern_toJava_M (JavaTypes.BoxedPrimitive JavaTypes.Double) v inScript
  else if JS_IsString v then
    extern_toJava_M JavaTypes.String v inScript
  else if JS_IsObject v then
    extern_toJava_M JavaTypes.JsonObjectWrapper v inScript
  else
    throwTypeException "Cannot marshal return value to Java" inScript;;
    mret JValue_empty.

(** [JSValue Object::fromJava(const JValue &value, bool inScript) const].
    The converter [newJavaType] hands back is never [Object] or [Deferred]
    (lemma [Object_newJavaType_extern]), so its virtual [fromJava] is one
    of another file. *)
Definition Object_fromJava (value : JValue) (inScript : bool) : M JSValue :=
  match getLocalRef value with
  | None => mret JS_NULL
  | Some jBasicObject =>
      match Object_newJavaType jBasicObject with
      | None =>
          throwTypeException
            "Cannot transfer Java Object to JS: unsupported Java type"
            inScript;;
          mret JS_EXCEPTION
      | Some javaType => extern_fromJava_M javaType value inScript
      end
  end.

(** ** [Deferred_quickjs.cpp] *)

(** [++promiseCount] on the static [int]. *)
Definition incr_promiseCount : M Z :=
  fun st =>
    let n := wrap_int (promiseCount st + 1) in
    Done n (with_promiseCount n st).

(** [JValue Deferred::toJava(JSValueConst v, bool inScript) const], "JS
    Promise to native Deferred".  [componentToJava] is the virtual
    [m_componentType->toJava]. *)
Definition Deferred_toJava_with
    (componentToJava : JSValue → bool → M JValue)
    (m_componentType : JavaType) (v : JSValue) (inScript : bool)
    : M JValue :=
  (* Create a native Deferred instance *)
  javaDeferred ←
    callJsBridgeObjectMethod "createCompletableDeferred"
      sig_createCompletableDeferred [];
  pending ← hasPendingJniException;
  if pending : bool then
    rethrowJniException;;
    mret JValue_empty
  else
  isPromise ←
    (if JS_IsObject v then hasPropertyStr v "then" else mret false);
  if negb isPromise then
    (* Not a Promise => directly resolve the native Deferred with the value *)
    value ← componentToJava v inScript;
    callJsBridgeVoidMethod "resolveDeferred" sig_resolveDeferred
      [ArgRef javaDeferred; ArgValue value];;
    pending ← hasPendingJniException;
    if pending : bool then
      rethrowJniException;;
      mret JValue_empty
    else
      mret (JValue_ref javaDeferred)
  else
  (* onPromiseFulfilledFunc with data *)
  onPromiseFulfilledPayloadValue ←
    createCppPtrValue
      (PtrOnPromisePayload (mkOnPromisePayload javaDeferred m_componentType));
  onPromiseFulfilledValue ←
    JS_NewCFunctionData onPromiseFulfilled_fn onPromiseFulfilledPayloadValue;
  (* onPromiseRejectedFunc with data *)
  onPromiseRejectedPayloadValue ←
    createCppPtrValue
      (PtrOnPromisePayload (mkOnPromisePayload javaDeferred m_componentType));
  onPromiseRejectedValue ←
    JS_NewCFunctionData onPromiseRejected_fn onPromiseRejectedPayloadValue;
  (* JsPromise.then() *)
  thenValue ← JS_GetPropertyStr v "then";
  thenIsFunction ← JS_IsFunction thenValue;
  assert thenIsFunction;;
  (* Call JsPromise.then(onPromiseFulfilled, onPromiseRejected) *)
  ret ← JS_Call thenValue v [onPromiseFulfilledValue; onPromiseRejectedValue];
  if JS_IsException ret then
    alog "Error while calling JSPromise.then()";;
    javaException ← getJavaExceptionForJsError;
    callJsBridgeVoidMethod "rejectDeferred" sig_rejectDeferred_Object
      [ArgRef javaDeferred; ArgRef javaException];;
    pending ← hasPendingJniException;
    if pending : bool then
      rethrowJniException;;
      mret JValue_empty
    else
      mret (JValue_ref javaDeferred)
  else
    mret (JValue_ref javaDeferred).

(** The virtual [JavaType::toJava]: [Object] and [Deferred] are the two
    converters of the sources, every other one lives in another file. *)
Fixpoint toJava (t : JavaType) (v : JSValue) (inScript : bool) {struct t}
    : M JValue :=
  match t with
  | JavaTypes.Object => Object_toJava v inScript
  | JavaTypes.Deferred c => Deferred_toJava_with (toJava c) c v inScript
  | _ => extern_toJava_M t v inScript
  end.

Definition Deferred_toJava (m_componentType : JavaType)
    : JSValue → bool → M JValue :=
  Deferred_toJava_with (toJava m_componentType) m_componentType.

(** [JSValue Deferred::fromJava(const JValue &value, bool inScript) const],
    "Native Deferred to JS Promise". *)
Definition Deferred_fromJava (m_componentType : JavaType) (value : JValue)
    (inScript : bool) : M JSValue :=
  let jDeferred := getLocalRef value in
  if isNull jDeferred then mret JS_NULL
  else
  (* Create a PromiseObject which will be eventually filled with
     {resolve, reject} *)
  promiseObject ← JS_NewObject;
  componentTypeValue ← createCppPtrValue (PtrJavaType m_componentType);
  JS_SetPropertyStr promiseObject PROMISE_COMPONENT_TYPE_PROP_NAME
    componentTypeValue;;
  count ← incr_promiseCount;
  let promiseObjectGlobalName :=
    PROMISE_OBJECT_GLOBAL_NAME_PREFIX +:+ to_string count in
  (* Put it to the global stash *)
  globalObj ← JS_GetGlobalObject;
  JS_SetPropertyStr globalObj promiseObjectGlobalName promiseObject;;
  (* promiseFunction = function(resolve, reject) + data (promiseObject) *)
  promiseFunctionValue ← JS_NewCFunctionData promiseFunction_fn promiseObject;
  (* new Promise(promiseFunction) *)
  promiseCtor ← JS_GetPropertyStr globalObj "Promise";
  promiseInstance ← JS_CallConstructor promiseCtor [promiseFunctionValue];
  assert (JS_IsObject promiseInstance);;
  (* Call Java setUpJsPromise() *)
  callJsBridgeVoidMethod "setUpJsPromise" sig_setUpJsPromise
    [ArgString promiseObjectGlobalName; ArgRef jDeferred];;
  pending ← hasPendingJniException;
  if pending : bool then
    rethrowJniException;;
    mret JS_EXCEPTION
  else
    mret promiseInstance.

(** The virtual [JavaType::fromJava]. *)
Definition fromJava (t : JavaType) (value : JValue) (inScript : bool)
    : M JSValue :=
  match t with
  | JavaTypes.Object => Object_fromJava value inScript
  | JavaTypes.Deferred c => Deferred_fromJava c value inScript
  | _ => extern_fromJava_M t value inScript
  end.

(** [void Deferred::completeJsPromise(jsBridgeContext, strId, isFulfilled,
    value)] *)
Definition Deferred_completeJsPromise (strId : string) (isFulfilled : bool)
    (value : JniLocalRef) : M unit :=
  (* Get the global PromiseObject *)
  globalObj ← JS_GetGlobalObject;
  promiseObj ← JS_GetPropertyStr globalObj strId;
  if negb (JS_IsObject promiseObj) then
    alog_warn ("Could not find PromiseObject with id " +:+ strId)
  else
  (* Get attached type ptr... *)
  componentTypeValue ←
    JS_GetPropertyStr promiseObj PROMISE_COMPONENT_TYPE_PROP_NAME;
  if JS_IsNull componentTypeValue || negb (JS_IsObject componentTypeValue)
  then
    alog_warn ("Could not get component type from Promise with id " +:+ strId)
  else
  componentType ← getCppPtr_JavaType componentTypeValue;
  (* Get the resolve/reject function *)
  let resolveOrRejectStr := if isFulfilled then "resolve" else "reject" in
  resolveOrReject ← JS_GetPropertyStr promiseObj resolveOrRejectStr;
  callable ← JS_IsFunction resolveOrReject;
  if callable : bool then
    (* Call it with the Promise value *)
    promiseParam ← fromJava componentType (JValue_ref value) false;
    ret ← JS_Call resolveOrReject promiseObj [promiseParam];
    if JS_IsException ret then
      alog ("Could not complete Promise with id " +:+ strId)
    else
      mret tt
  else
    alog ("Could not complete Promise with id " +:+ strId +:+ ": cannot find "
            +:+ resolveOrRejectStr).

(** *** The native callbacks the engine runs *)

(** [onPromiseFulfilled(ctx, this_val, argc, argv, magic, datav)] *)
Definition onPromiseFulfilled (argv : list JSValue) (datav : JSValue)
    : M JSValue :=
  payload ← getCppPtr_OnPromisePayload datav;
  (* Pop promise value *)
  let promiseValue := match argv with v :: _ => v | [] => JS_NULL end in
  value ← toJava (componentType payload) promiseValue true;
  (* Complete the native Deferred *)
  callJsBridgeVoidMethod "resolveDeferred" sig_resolveDeferred
    [ArgRef (javaDeferred payload); ArgValue value];;
  pending ← hasPendingJniException;
  if pending : bool then
    rethrowJniException;;
    mret JS_EXCEPTION
  else
    mret JS_UNDEFINED.

(** [onPromiseRejected(ctx, this_val, argc, argv, magic, datav)] *)
Definition onPromiseRejected (argv : list JSValue) (datav : JSValue)
    : M JSValue :=
  payload ← getCppPtr_OnPromisePayload datav;
  JS_Throw (match argv with v :: _ => v | [] => JS_NULL end);;
  javaException ← getJavaExceptionForJsError;
  let value := JValue_ref javaException in
  (* Reject the native Deferred *)
  callJsBridgeVoidMethod "rejectDeferred" sig_rejectDeferred_JsException
    [ArgRef (javaDeferred payload); ArgValue value];;
  pending ← hasPendingJniException;
  if pending : bool then
    rethrowJniException;;
    mret JS_EXCEPTION
  else
    mret JS_UNDEFINED.

End Bridge.

(** [promiseFunction(ctx, this_val, argc, argv, magic, datav)], "Add resolve
    and reject to bound PromiseObject instance".  It needs nothing of the
    environment. *)
Definition promiseFunction (argv : list JSValue) (datav : JSValue)
    : M JSValue :=
  let promiseObject := datav in
  (* Set PromiseObject.resolve and PromiseObject.reject *)
  modifyW (set_property promiseObject "resolve"
             (match argv with a0 :: _ => a0 | _ => JS_NULL end));;
  modifyW (set_property promiseObject "reject"
             (match argv with _ :: a1 :: _ => a1 | _ => JS_NULL end));;
  mret JS_UNDEFINED.

(** ** [Object.cpp], Duktape build *)

Module Duktape.

(** [DUK_TYPE_*], the result of [duk_get_type]. *)
Inductive duk_type : Type :=
| DUK_TYPE_NONE
| DUK_TYPE_UNDEFINED
| DUK_TYPE_NULL
| DUK_TYPE_BOOLEAN
| DUK_TYPE_NUMBER
| DUK_TYPE_STRING
| DUK_TYPE_OBJECT
| DUK_TYPE_BUFFER
| DUK_TYPE_POINTER
| DUK_TYPE_LIGHTFUNC.

(** A value on the Duktape value stack.  Every number is an IEEE double,
    kept as its bit pattern. *)
Inductive duk_value : Type :=
| DukUndefined
| DukNull
| DukBoolean (b : bool)
| DukNumber (bits : Z)
| DukString (s : string)
| DukObject (p : nat)
| DukBuffer (p : nat)
| DukPointer (p : Z)
| DukLightfunc (p : Z).

Definition type_of (v : duk_value) : duk_type :=
  match v with
  | DukUndefined => DUK_TYPE_UNDEFINED
  | DukNull => DUK_TYPE_NULL
  | DukBoolean _ => DUK_TYPE_BOOLEAN
  | DukNumber _ => DUK_TYPE_NUMBER
  | DukString _ => DUK_TYPE_STRING
  | DukObject _ => DUK_TYPE_OBJECT
  | DukBuffer _ => DUK_TYPE_BUFFER
  | DukPointer _ => DUK_TYPE_POINTER
  | DukLightfunc _ => DUK_TYPE_LIGHTFUNC
  end.

(** The context: the value stack, top first, and what was reported. *)
Record Ctx : Type := mkCtx {
  stack : list duk_value;
  reported : list Event;
}.

(** What the Duktape build of [Object.cpp] uses and does not define. *)
Record DukEnv : Type := mkDukEnv {
  (** [duk_safe_to_string] of a value *)
  safe_to_string : duk_value → string;
  (** [pop] and [push] of the converters defined in other files *)
  extern_pop : JavaType → bool → Ctx → JValue * Ctx;
  extern_push : JavaType → JValue → bool → Ctx → Z * Ctx;
}.

Definition DUK_RET_ERROR : Z := -1.

(** [duk_get_type(ctx, -1)] *)
Definition duk_get_type_top (c : Ctx) : duk_type :=
  match stack c with
  | v :: _ => type_of v
  | [] => DUK_TYPE_NONE
  end.

(** [duk_pop(ctx)] *)
Definition duk_pop (c : Ctx) : Ctx := mkCtx (tail (stack c)) (reported c).

(** [duk_push_null(ctx)] *)
Definition duk_push_null (c : Ctx) : Ctx :=
  mkCtx (DukNull :: stack c) (reported c).

(** Modelled from the spec: [JsBridgeContext::throwTypeException] is not in
    the file; the type error is reported (section 7). *)
Definition throwTypeException (message : string) (inScript : bool) (c : Ctx)
    : Ctx :=
  mkCtx (stack c) (reported c ++ [EvThrowTypeException message inScript]).

Section Object.
Variable env : Env.
Variable duk : DukEnv.

(** [JValue Object::pop(bool inScript) const].  The macros
    [CHECK_STACK_OFFSET] and [CHECK_STACK_NOW] of [StackChecker.h] only
    check the stack depth in debug builds and are left out. *)
Definition Object_pop (inScript : bool) (c : Ctx) : JValue * Ctx :=
  let dukType := duk_get_type_top c in
  match dukType with
  | DUK_TYPE_NULL | DUK_TYPE_UNDEFINED =>
      (JValue_empty, duk_pop c)
  | DUK_TYPE_BOOLEAN =>
      extern_pop duk (JavaTypes.BoxedPrimitive JavaTypes.Boolean) inScript c
  | DUK_TYPE_NUMBER =>
      extern_pop duk (JavaTypes.BoxedPrimitive JavaTypes.Double) inScript c
  | DUK_TYPE_STRING =>
      extern_pop duk JavaTypes.String inScript c
  | DUK_TYPE_OBJECT =>
      extern_pop duk JavaTypes.JsonObjectWrapper inScript c
  | _ =>
      let message :=
        "Cannot marshal return value "
          +:+ match stack c with
              | v :: _ => safe_to_string duk v
              | [] => safe_to_string duk DukUndefined
              end
          +:+ " to Java" in
      (JValue_empty, throwTypeException message inScript (duk_pop c))
  end.

(** [duk_ret_t Object::push(const JValue &value, bool inScript) const] *)
Definition Object_push (value : JValue) (inScript : bool) (c : Ctx)
    : Z * Ctx :=
  match getLocalRef value with
  | None => (1%Z, duk_push_null c)
  | Some jBasicObject =>
      match Object_newJavaType env jBasicObject with
      | None =>
          (DUK_RET_ERROR,
           throwTypeException "Cannot push Object: unsupported Java type"
             inScript c)
      | Some javaType => extern_push duk javaType value inScript c
      end
  end.
End Object.

End Duktape.

(** * Reasoning about runs *)

(** Unfolding of the monad and of the primitives, one layer at a time. *)
Lemma bind_Done {A B} (m : M A) (k : A → M B) st a st' :
  m st = Done a st' → (m ≫= k) st = k a st'.
Proof. intros H. unfold mbind, M_bind. by rewrite H. Qed.

Lemma bind_Crash {A B} (m : M A) (k : A → M B) st st' :
  m st = Crash st' → (m ≫= k) st = Crash st'.
Proof. intros H. unfold mbind, M_bind. by rewrite H. Qed.

Lemma bind_unfold {A B} (m : M A) (k : A → M B) st :
  (m ≫= k) st = match m st with
                | Done a st' => k a st'
                | Crash st' => Crash st'
                end.
Proof. reflexivity. Qed.

Ltac unfold_prims :=
  unfold callJsBridgeVoidMethod, callJsBridgeObjectMethod,
    hasPendingJniException, rethrowJniException, throwTypeException,
    getJavaExceptionForJsError, alog, alog_warn, assert,
    JS_IsFunction, hasPropertyStr, JS_GetPropertyStr, JS_SetPropertyStr,
    JS_NewObject, JS_NewCFunctionData, createCppPtrValue,
    getCppPtr_JavaType, getCppPtr_OnPromisePayload, JS_GetGlobalObject,
    JS_ThrowTypeError, JS_Throw, JS_Call, JS_CallConstructor,
    extern_toJava_M, extern_fromJava_M, incr_promiseCount,
    mbind, M_bind, mret, M_ret, getW, modifyW, liftW, emit, crash in *.

(** ** A concrete environment

    A small engine and host, enough to run every entry point: the global
    object is object 0 and holds the [Promise] constructor, object 1. *)
Module Example.

(** [new Promise(executor)]: the promise and its two resolving functions
    are allocated and the executor runs at once; the bridge's executor is
    the native [promiseFunction]. *)
Definition construct (ctor : JSValue) (args : list JSValue) (w : World)
    : JSValue * World :=
  let '(promise, w1) := alloc JS_CLASS_OBJECT w in
  let '(resolve, w2) := alloc JS_CLASS_FUNCTION w1 in
  let '(reject, w3) := alloc JS_CLASS_FUNCTION w2 in
  match args with
  | executor :: _ =>
      match lookup_object executor w3 with
      | Some (mkJSObject (JS_CLASS_C_FUNCTION_DATA promiseFunction_fn data) _) =>
          (promise,
           world (final_state
                    (promiseFunction [resolve; reject] data (mkState w3 0 []))))
      | _ => (promise, w3)
      end
  | [] => (promise, w3)
  end.

(** The Java names of the types the dispatcher knows. *)
Definition javaNameToId (name : string) : JavaTypeId.t :=
  if decide (name = "boolean") then JavaTypeId.Boolean
  else if decide (name = "java.lang.Boolean") then JavaTypeId.BoxedBoolean
  else if decide (name = "int") then JavaTypeId.Int
  else if decide (name = "java.lang.Integer") then JavaTypeId.BoxedInt
  else if decide (name = "long") then JavaTypeId.Long
  else if decide (name = "java.lang.Long") then JavaTypeId.BoxedLong
  else if decide (name = "float") then JavaTypeId.Float
  else if decide (name = "java.lang.Float") then JavaTypeId.BoxedFloat
  else if decide (name = "double") then JavaTypeId.Double
  else if decide (name = "java.lang.Double") then JavaTypeId.BoxedDouble
  else if decide (name = "java.lang.String") then JavaTypeId.String
  else if decide (name = "java.lang.Object") then JavaTypeId.Object
  else if decide (name = "kotlinx.coroutines.Deferred") then JavaTypeId.Deferred
  else if decide (name = "de.prosiebensat1digital.oasisjsbridge.JsonObjectWrapper")
  then JavaTypeId.JsonObjectWrapper
  else JavaTypeId.Unknown.

(** Java objects 1 to 5 of the examples. *)
Definition className (o : jobject) : string :=
  match o with
  | 1 => "java.lang.Integer"
  | 2 => "java.lang.String"
  | 3 => "kotlinx.coroutines.Deferred"
  | 4 => "java.util.Date"
  | _ => "java.lang.Double"
  end.

(** The host hands out a new deferred per call and never throws. *)
Definition quietHost (tr : list Event) (name signature : string)
    (args : list JArg) : JniLocalRef * bool :=
  if decide (name = "createCompletableDeferred")
  then (Some (100 + length tr), false)
  else (None, false).

(** Converters of other files: a boxed object per script value. *)
Definition boxToJava (t : JavaType) (v : JSValue) (inScript : bool)
    (w : World) : JValue * World :=
  (JValue_ref (Some 50), w).

Definition unboxFromJava (t : JavaType) (value : JValue) (inScript : bool)
    (w : World) : JSValue * World :=
  (JS_INT 42, w).

(** Running a callable: nothing happens, [undefined] comes back (a
    resolving function of a promise; a well-behaved [then]). *)
Definition quietCall (func this : JSValue) (args : list JSValue) (w : World)
    : JSValue * World :=
  (JS_UNDEFINED, w).

(** The pending script exception becomes the Java exception 7. *)
Definition takeException (w : World) : JniLocalRef * World :=
  (Some 7, with_js_exception None w).

(** A rethrown host exception stays pending on its way to the caller. *)
Definition keepPending (w : World) : World := w.

(** A type error is raised on the crossing side: in the script when
    [inScript], in the host otherwise. *)
Definition raiseTypeError (message : string) (inScript : bool) (w : World)
    : World :=
  if inScript
  then with_js_exception (Some (JS_STRING ("TypeError: " +:+ message))) w
  else with_jni_pending true w.

(** The example environments differ in four parts only. *)
Definition make (ndebug : bool)
    (host : list Event → string → string → list JArg → JniLocalRef * bool)
    (conv : JavaType → JSValue → bool → World → JValue * World)
    (call : JSValue → JSValue → list JSValue → World → JSValue * World)
    : Env :=
  mkEnv ndebug javaNameToId className host takeException keepPending
        raiseTypeError conv unboxFromJava call construct.

Definition env : Env := make false quietHost boxToJava quietCall.

Definition world0 : World :=
  mkWorld
    (<[0 := mkJSObject JS_CLASS_OBJECT {["Promise" := JS_OBJECT 1]}]>
       (<[1 := mkJSObject JS_CLASS_FUNCTION ∅]> ∅))
    2 0 None false.

Definition st0 : State := mkState world0 0 [].

(** A converter that fails: it leaves a host exception pending and returns
    the empty value. *)
Definition failingToJava (t : JavaType) (v : JSValue) (inScript : bool)
    (w : World) : JValue * World :=
  (JValue_empty, with_jni_pending true w).

Definition env_conversion_fails : Env :=
  make false quietHost failingToJava quietCall.

(** A host whose method [method] throws. *)
Definition throwingHost (method : string) (tr : list Event)
    (name signature : string) (args : list JArg) : JniLocalRef * bool :=
  if decide (name = method) then (None, true)
  else quietHost tr name signature args.

Definition env_host_throws (method : string) : Env :=
  make false (throwingHost method) boxToJava quietCall.

(** An engine in which every callable throws the string ["boom"]. *)
Definition raisingCall (func this : JSValue) (args : list JSValue)
    (w : World) : JSValue * World :=
  (JS_EXCEPTION, with_js_exception (Some (JS_STRING "boom")) w).

Definition env_then_raises : Env :=
  make false quietHost boxToJava raisingCall.

Definition env_then_raises_host_throws (method : string) : Env :=
  make false (throwingHost method) boxToJava raisingCall.

(** The example environment with assertions compiled out. *)
Definition env_NDEBUG : Env :=
  make true quietHost boxToJava quietCall.

(** A world with two more objects: object 2 is a thenable, its ["then"]
    is the function object 3; object 4 is [{ then: 42 }]. *)
Definition world1 : World :=
  mkWorld
    (<[4 := mkJSObject JS_CLASS_OBJECT {["then" := JS_INT 42]}]>
       (<[3 := mkJSObject JS_CLASS_FUNCTION ∅]>
          (<[2 := mkJSObject JS_CLASS_OBJECT {["then" := JS_OBJECT 3]}]>
             (js_heap world0))))
    5 0 None false.

Definition st1 : State := mkState world1 0 [].

(** A bridge: the host deferred 9 exposed to the script as a promise of an
    [Integer], and the state after one and after two completions. *)
Definition bridge_id : string := "__javaTypes_deferred_promiseobject_1".

Definition st_bridge : State :=
  final_state
    (Deferred_fromJava env (JavaTypes.BoxedPrimitive JavaTypes.Integer)
       (JValue_ref (Some 9)) false st0).

Definition st_completed_once : State :=
  final_state (Deferred_completeJsPromise env bridge_id true (Some 1) st_bridge).

Definition st_completed_twice : State :=
  final_state
    (Deferred_completeJsPromise env bridge_id true (Some 1) st_completed_once).

End Example.

(** * The type dispatcher *)

(** ** What [Object::newJavaType] returns *)

(** The case labels of the [switch] of [Object::newJavaType]. *)
Definition supported_ids : list JavaTypeId.t :=
  [ JavaTypeId.Boolean; JavaTypeId.BoxedBoolean;
    JavaTypeId.Int; JavaTypeId.BoxedInt;
    JavaTypeId.Long; JavaTypeId.BoxedLong;
    JavaTypeId.Float; JavaTypeId.BoxedFloat;
    JavaTypeId.Double; JavaTypeId.BoxedDouble;
    JavaTypeId.String; JavaTypeId.JsonObjectWrapper ].

(** The runtime type identifier of a host object. *)
Definition runtime_id (env : Env) (jobj : jobject) : JavaTypeId.t :=
  getJavaTypeIdByJavaName env (getObjectClassName env jobj).

(** The converters [Object::newJavaType] can hand back. *)
Definition dispatched_types : list JavaType :=
  [ JavaTypes.BoxedPrimitive JavaTypes.Boolean;
    JavaTypes.BoxedPrimitive JavaTypes.Integer;
    JavaTypes.BoxedPrimitive JavaTypes.Long;
    JavaTypes.BoxedPrimitive JavaTypes.Float;
    JavaTypes.BoxedPrimitive JavaTypes.Double;
    JavaTypes.String;
    JavaTypes.JsonObjectWrapper ].

Ltac elem_of_explicit_list :=
  repeat first [ apply list_elem_of_here | apply list_elem_of_further ].

Ltac not_elem_of_explicit_list H :=
  repeat (apply elem_of_cons in H as [H | H]; [discriminate H |]);
  by apply elem_of_nil in H.

Lemma Object_newJavaType_None env jobj :
  Object_newJavaType env jobj = None ↔ runtime_id env jobj ∉ supported_ids.
Proof.
  unfold Object_newJavaType, runtime_id, supported_ids.
  destruct (getJavaTypeIdByJavaName env (getObjectClassName env jobj));
    split; intros H; try done;
    first [ exfalso; apply H; elem_of_explicit_list
          | intros Hin; not_elem_of_explicit_list Hin ].
Qed.

Lemma Object_newJavaType_range env jobj t :
  Object_newJavaType env jobj = Some t → t ∈ dispatched_types.
Proof.
  unfold Object_newJavaType, dispatched_types.
  destruct (getJavaTypeIdByJavaName env (getObjectClassName env jobj));
    intros H; try discriminate H; injection H as <-; elem_of_explicit_list.
Qed.

(** The converter handed back is one of another file: its virtual
    [fromJava] is the one [Object::fromJava] calls. *)
Lemma Object_newJavaType_extern env jobj t value inScript :
  Object_newJavaType env jobj = Some t →
  fromJava env t value inScript = extern_fromJava_M env t value inScript.
Proof.
  intros H. apply Object_newJavaType_range in H.
  unfold dispatched_types in H.
  repeat (apply elem_of_cons in H as [-> | H]; [reflexivity |]).
  by apply elem_of_nil in H.
Qed.

(** ** Null host values (C9) *)

(** C9.  Converting a null host value to script is the identity to script
    null, without any effect: [Deferred::fromJava] on a null deferred handle
    returns [JS_NULL] in the very state it was called in (no promise object,
    no bridge id, no registry entry, no host call), and so does
    [Object::fromJava] on a null object, whatever the classification of host
    objects is. *)
Theorem fromJava_null_is_JS_NULL
    (env : Env) (m_componentType : JavaType) (value : JValue)
    (inScript : bool) (st : State) :
  isNull (getLocalRef value) = true →
  Deferred_fromJava env m_componentType value inScript st = Done JS_NULL st
  ∧ Object_fromJava env value inScript st = Done JS_NULL st.
Proof.
  intros Hnull. unfold Deferred_fromJava, Object_fromJava.
  destruct (getLocalRef value); [discriminate|]. done.
Qed.

Lemma fromJava_null_is_JS_NULL_witness :
  Deferred_fromJava Example.env JavaTypes.String (JValue_ref None) true
    Example.st0 = Done JS_NULL Example.st0
  ∧ Object_fromJava Example.env (JValue_ref None) true Example.st0
    = Done JS_NULL Example.st0.
Proof.
  apply (fromJava_null_is_JS_NULL Example.env JavaTypes.String
           (JValue_ref None) true Example.st0).
  reflexivity.
Defined.

(** ** Unsupported values (C3) *)

(** The script values [Object::toJava] has a branch for. *)
Definition toJava_supported (v : JSValue) : bool :=
  JS_IsUndefined v || JS_IsNull v || JS_IsBool v || JS_IsNumber v
  || JS_IsString v || JS_IsObject v.

(** C3.  A boundary value whose runtime type is outside the supported set
    yields a reported type error that is returned to the caller, in both
    directions, and never a crash: [Object::toJava] on a script value that is
    neither undefined, null, a boolean, a number, a string nor an object
    reports "Cannot marshal return value to Java" and returns the empty
    [JValue]; [Object::fromJava] on a non-null host object whose runtime type
    identifier is none of the supported ones reports "Cannot transfer Java
    Object to JS: unsupported Java type" and returns [JS_EXCEPTION]. *)
Theorem unsupported_type_is_TypeError
    (env : Env) (inScript : bool) (st : State) :
  (∀ v : JSValue,
     toJava_supported v = false →
     ∃ st',
       Object_toJava env v inScript st = Done JValue_empty st'
       ∧ throwTypeException env "Cannot marshal return value to Java"
           inScript st
         = Done tt st'
       ∧ trace st' =
           trace st
             ++ [EvThrowTypeException "Cannot marshal return value to Java"
                   inScript])
  ∧ (∀ jobj : jobject,
       runtime_id env jobj ∉ supported_ids →
       ∃ st',
         Object_fromJava env (JValue_ref (Some jobj)) inScript st
         = Done JS_EXCEPTION st'
         ∧ throwTypeException env
             "Cannot transfer Java Object to JS: unsupported Java type"
             inScript st = Done tt st'
         ∧ trace st' =
             trace st
               ++ [EvThrowTypeException
                     "Cannot transfer Java Object to JS: unsupported Java type"
                     inScript]).
Proof.
  split.
  - intros v Hv. unfold toJava_supported in Hv.
    destruct v; try discriminate Hv;
      unfold Object_toJava; cbn [JS_IsUndefined JS_IsNull JS_IsBool JS_IsNumber
                                  JS_IsString JS_IsObject orb];
      unfold_prims; cbn; eexists; done.
  - intros jobj Hid. apply Object_newJavaType_None in Hid.
    unfold Object_fromJava. cbn [getLocalRef]. rewrite Hid.
    unfold_prims; cbn; eexists; done.
Qed.

(** ** Classification of an untyped host value (C4) *)

(** A host deferred in untyped-object position: object 3 of the example
    host has the runtime type name ["kotlinx.coroutines.Deferred"], whose
    identifier is [JavaTypeId.Deferred]; [Object::newJavaType] has no case for
    it and returns [nullptr], and [Object::fromJava] reports the unsupported
    type. *)
Lemma newJavaType_Deferred_is_nullptr :
  runtime_id Example.env 3 = JavaTypeId.Deferred
  ∧ Object_newJavaType Example.env 3 = None
  ∧ Object_newJavaType Example.env 3
    = Object_newJavaType Example.env 4
  ∧ runtime_id Example.env 4 = JavaTypeId.Unknown
  ∧ trace (final_state
             (Object_fromJava Example.env (JValue_ref (Some 3)) false
                Example.st0))
    = [EvThrowTypeException
         "Cannot transfer Java Object to JS: unsupported Java type" false].
Proof. repeat split; vm_compute; reflexivity. Qed.

(** C4, as the code has it.  [Object::newJavaType] maps the runtime type
    name of the value to its identifier and selects a converter for these
    identifiers only: boolean, int, long, float and double, primitive or
    boxed alike, give the boxed converter of that primitive; string gives the
    string converter; the JSON object wrapper gives its converter.  Every
    other identifier (deferred, object, unknown and the rest) gives
    [nullptr]: a converter is never a deferred one, and a host deferred in
    untyped-object position is unsupported. *)
Theorem newJavaType_classification (env : Env) (jobj : jobject) :
  let id := runtime_id env jobj in
  let selected := Object_newJavaType env jobj in
  (id ∈ [JavaTypeId.Boolean; JavaTypeId.BoxedBoolean] →
     selected = Some (JavaTypes.BoxedPrimitive JavaTypes.Boolean))
  ∧ (id ∈ [JavaTypeId.Int; JavaTypeId.BoxedInt] →
     selected = Some (JavaTypes.BoxedPrimitive JavaTypes.Integer))
  ∧ (id ∈ [JavaTypeId.Long; JavaTypeId.BoxedLong] →
     selected = Some (JavaTypes.BoxedPrimitive JavaTypes.Long))
  ∧ (id ∈ [JavaTypeId.Float; JavaTypeId.BoxedFloat] →
     selected = Some (JavaTypes.BoxedPrimitive JavaTypes.Float))
  ∧ (id ∈ [JavaTypeId.Double; JavaTypeId.BoxedDouble] →
     selected = Some (JavaTypes.BoxedPrimitive JavaTypes.Double))
  ∧ (id = JavaTypeId.String → selected = Some JavaTypes.String)
  ∧ (id = JavaTypeId.JsonObjectWrapper →
     selected = Some JavaTypes.JsonObjectWrapper)
  ∧ (id ∉ supported_ids → selected = None)
  ∧ (id ∈ [JavaTypeId.Deferred; JavaTypeId.Object; JavaTypeId.Unknown] →
     selected = None)
  ∧ (∀ c : JavaType, selected = Some c → c ∈ dispatched_types)
  ∧ (∀ c : JavaType, selected = Some (JavaTypes.Deferred c) → False).
Proof.
  cbv zeta. unfold runtime_id.
  repeat split.
  1-5, 9: intros H; unfold Object_newJavaType;
    repeat (apply elem_of_cons in H as [-> | H]; [reflexivity |]);
    by apply elem_of_nil in H.
  1-2: by intros H; unfold Object_newJavaType; rewrite H.
  - intros H. by apply Object_newJavaType_None.
  - intros c. apply Object_newJavaType_range.
  - intros c H. apply Object_newJavaType_range in H.
    not_elem_of_explicit_list H.
Qed.

(** ** Script values in untyped-object position (C10) *)

(** C10.  In untyped-object position every script number goes through the
    boxed [Double] converter, whether its tag is the integer one or the float
    one; booleans go through the boxed [Boolean] converter, strings through
    the [String] converter and every object through the JSON object wrapper.
    This holds for the QuickJS build ([Object::toJava]) and for the Duktape
    build ([Object::pop]).  The [Integer] and [Long] converters have no part
    in it: the result is the same under every environment with this [Double]
    converter. *)
Theorem untyped_script_value_dispatch
    (env : Env) (duk : Duktape.DukEnv) (inScript : bool) :
  (∀ (v : JSValue) (st : State),
     (JS_IsNumber v = true →
        Object_toJava env v inScript st
        = extern_toJava_M env (JavaTypes.BoxedPrimitive JavaTypes.Double)
            v inScript st)
     ∧ (JS_IsBool v = true →
        Object_toJava env v inScript st
        = extern_toJava_M env (JavaTypes.BoxedPrimitive JavaTypes.Boolean)
            v inScript st)
     ∧ (JS_IsString v = true →
        Object_toJava env v inScript st
        = extern_toJava_M env JavaTypes.String v inScript st)
     ∧ (JS_IsObject v = true →
        Object_toJava env v inScript st
        = extern_toJava_M env JavaTypes.JsonObjectWrapper v inScript st))
  ∧ (∀ (n : Z) (st : State),
       Object_toJava env (JS_INT n) inScript st
       = Object_toJava
           (mkEnv (NDEBUG env) (getJavaTypeIdByJavaName env)
              (getObjectClassName env) (jniCall env)
              (javaExceptionForJsError env) (rethrowJni env)
              (typeException env)
              (fun t => match t with
                        | JavaTypes.BoxedPrimitive JavaTypes.Double =>
                            extern_toJava env t
                        | _ => fun _ _ w => (JValue_empty, w)
                        end)
              (extern_fromJava env) (engine_call env) (engine_construct env))
           (JS_INT n) inScript st)
  ∧ (∀ c : Duktape.Ctx,
       let dukType := Duktape.duk_get_type_top c in
       (dukType = Duktape.DUK_TYPE_NUMBER →
          Duktape.Object_pop duk inScript c
          = Duktape.extern_pop duk
              (JavaTypes.BoxedPrimitive JavaTypes.Double) inScript c)
       ∧ (dukType = Duktape.DUK_TYPE_BOOLEAN →
          Duktape.Object_pop duk inScript c
          = Duktape.extern_pop duk
              (JavaTypes.BoxedPrimitive JavaTypes.Boolean) inScript c)
       ∧ (dukType = Duktape.DUK_TYPE_STRING →
          Duktape.Object_pop duk inScript c
          = Duktape.extern_pop duk JavaTypes.String inScript c)
       ∧ (dukType = Duktape.DUK_TYPE_OBJECT →
          Duktape.Object_pop duk inScript c
          = Duktape.extern_pop duk JavaTypes.JsonObjectWrapper inScript c)).
Proof.
  repeat split.
  1-4: destruct v; intros H; try discriminate H; reflexivity.
  1-4: intros H; unfold Duktape.Object_pop; by rewrite H.
Qed.

(** * Script promise to host deferred: [Deferred::toJava] *)

(** [bool isPromise = JS_IsObject(v) && utils->hasPropertyStr(v, "then")] *)
Definition is_promise (v : JSValue) (w : World) : bool :=
  JS_IsObject v && has_property v "then" w.

(** A value has a callable "then" capability. *)
Definition has_callable_then (v : JSValue) (w : World) : bool :=
  is_promise v w && is_function (get_property v "then" w) w.

(** The state right after a call into the host. *)
Definition after_jniCall (env : Env) (name signature : string)
    (args : list JArg) (st : State) : State :=
  final_state (callJsBridgeObjectMethod env name signature args st).

(** Whether the host raises on a call made in a given state. *)
Definition jniCall_throws (env : Env) (name signature : string)
    (args : list JArg) (st : State) : bool :=
  (jniCall env (trace st) name signature args).2.

(** The reference the host returns on a call made in a given state. *)
Definition jniCall_result (env : Env) (name signature : string)
    (args : list JArg) (st : State) : JniLocalRef :=
  (jniCall env (trace st) name signature args).1.

Lemma callJsBridgeObjectMethod_eq env name signature args st :
  callJsBridgeObjectMethod env name signature args st
  = Done (jniCall_result env name signature args st)
         (after_jniCall env name signature args st).
Proof.
  unfold after_jniCall, jniCall_result, callJsBridgeObjectMethod.
  by destruct (jniCall env (trace st) name signature args).
Qed.

Lemma after_jniCall_world env name signature args st :
  world (after_jniCall env name signature args st)
  = with_jni_pending
      (jni_pending (world st) || jniCall_throws env name signature args st)
      (world st).
Proof.
  unfold after_jniCall, jniCall_throws, callJsBridgeObjectMethod.
  by destruct (jniCall env (trace st) name signature args).
Qed.

Lemma after_jniCall_trace env name signature args st :
  trace (after_jniCall env name signature args st)
  = trace st ++ [EvJniCall name signature args].
Proof.
  unfold after_jniCall, callJsBridgeObjectMethod.
  by destruct (jniCall env (trace st) name signature args).
Qed.

Lemma after_jniCall_promiseCount env name signature args st :
  promiseCount (after_jniCall env name signature args st) = promiseCount st.
Proof.
  unfold after_jniCall, callJsBridgeObjectMethod.
  by destruct (jniCall env (trace st) name signature args).
Qed.

Lemma callJsBridgeVoidMethod_eq env name signature args st :
  callJsBridgeVoidMethod env name signature args st
  = Done tt (after_jniCall env name signature args st).
Proof.
  unfold callJsBridgeVoidMethod.
  by rewrite bind_unfold, callJsBridgeObjectMethod_eq.
Qed.

Lemma is_promise_pending v b w :
  is_promise v (with_jni_pending b w) = is_promise v w.
Proof. by destruct v. Qed.

(** The branch [Deferred::toJava] takes once the deferred exists. *)
Lemma isPromise_eq v st :
  (if JS_IsObject v then hasPropertyStr v "then" else mret false) st
  = Done (is_promise v (world st)) st.
Proof. unfold is_promise. by destruct (JS_IsObject v). Qed.

(** The state in which the component converter runs on the fast path. *)
Definition deferred_created (env : Env) (st : State) : State :=
  after_jniCall env "createCompletableDeferred"
    sig_createCompletableDeferred [] st.

(** The deferred the host hands out. *)
Definition created_deferred (env : Env) (st : State) : JniLocalRef :=
  jniCall_result env "createCompletableDeferred"
    sig_createCompletableDeferred [] st.

Lemma is_promise_deferred_created env v st :
  is_promise v (world (deferred_created env st)) = is_promise v (world st).
Proof.
  unfold deferred_created. by rewrite after_jniCall_world, is_promise_pending.
Qed.

(** [Deferred::toJava] up to the test [isPromise], when the host created
    the deferred without a pending exception. *)
Lemma Deferred_toJava_created env v st
    (k : JniLocalRef → bool → M JValue) :
  jni_pending (world (deferred_created env st)) = false →
  (javaDeferred ←
     callJsBridgeObjectMethod env "createCompletableDeferred"
       sig_createCompletableDeferred [];
   pending ← hasPendingJniException;
   if pending : bool then rethrowJniException env;; mret JValue_empty
   else
     isPromise ←
       (if JS_IsObject v then hasPropertyStr v "then" else mret false);
     k javaDeferred isPromise) st
  = k (created_deferred env st)
      (is_promise v (world st)) (deferred_created env st).
Proof.
  intros Hpend.
  rewrite bind_unfold, callJsBridgeObjectMethod_eq.
  fold (deferred_created env st) (created_deferred env st).
  rewrite bind_unfold. unfold hasPendingJniException at 1, getW at 1.
  rewrite Hpend. rewrite bind_unfold, isPromise_eq.
  by rewrite is_promise_deferred_created.
Qed.

(** The state after [rethrowJniException]. *)
Definition rethrown (env : Env) (st : State) : State :=
  with_world (rethrowJni env (world (with_event EvRethrowJniException st)))
    (with_event EvRethrowJniException st).

(** The tail shared by the fast path and by the failed [then]: the host
    completes the deferred, and the handle is returned unless an exception
    is pending. *)
Lemma complete_and_return env name signature args (d : JniLocalRef) st :
  (callJsBridgeVoidMethod env name signature args;;
   pending ← hasPendingJniException;
   if pending : bool then rethrowJniException env;; mret JValue_empty
   else mret (JValue_ref d)) st
  = let st' := after_jniCall env name signature args st in
    if jni_pending (world st')
    then Done JValue_empty (rethrown env st')
    else Done (JValue_ref d) st'.
Proof.
  rewrite bind_unfold, callJsBridgeVoidMethod_eq. cbv zeta.
  rewrite bind_unfold. unfold hasPendingJniException at 1, getW at 1.
  by destruct (jni_pending _).
Qed.

(** C1, as the code has it.  For every script value [v] that is not an
    object with a "then" property and every component converter [C],
    [Deferred::toJava] asks the host for a new deferred and converts [v] with
    [C] right after; provided no host exception is pending after the creation
    and after [resolveDeferred], it completes the deferred synchronously and
    exactly once with [C.convert(v)] (the one event added after the
    conversion is the call of [resolveDeferred] on the deferred and the
    converted value), registers no callbacks and no bridge entry (the world
    and the id counter are as the conversion left them) and returns the
    deferred handle. *)
Theorem Deferred_toJava_fast_path
    (env : Env) (C : JavaType) (v : JSValue) (inScript : bool)
    (st st2 : State) (value : JValue) :
  let d := created_deferred env st in
  let resolve :=
    EvJniCall "resolveDeferred" sig_resolveDeferred
      [ArgRef d; ArgValue value] in
  is_promise v (world st) = false →
  jni_pending (world (deferred_created env st)) = false →
  toJava env C v inScript (deferred_created env st) = Done value st2 →
  jni_pending
    (world (after_jniCall env "resolveDeferred" sig_resolveDeferred
              [ArgRef d; ArgValue value] st2)) = false →
  ∃ st',
    Deferred_toJava env C v inScript st = Done (JValue_ref d) st'
    ∧ world st' = world st2
    ∧ promiseCount st' = promiseCount st2
    ∧ trace st' = trace st2 ++ [resolve]
    ∧ trace (deferred_created env st)
      = trace st
          ++ [EvJniCall "createCompletableDeferred"
                sig_createCompletableDeferred []].
Proof.
  intros d resolve Hnot Hcreated Hconv Hresolved.
  exists (after_jniCall env "resolveDeferred" sig_resolveDeferred
            [ArgRef d; ArgValue value] st2).
  split; [| repeat split ].
  - unfold Deferred_toJava, Deferred_toJava_with.
    rewrite (Deferred_toJava_created env v st
               (fun javaDeferred isPromise =>
                  if negb isPromise then _ else _)) by done.
    rewrite Hnot. cbn [negb].
    rewrite bind_unfold, Hconv.
    rewrite complete_and_return. cbv zeta.
    fold d. by rewrite Hresolved.
  - rewrite after_jniCall_world.
    rewrite after_jniCall_world in Hresolved. cbn in Hresolved.
    destruct (world st2) as [h n g e p]. cbn in *. rewrite Hresolved.
    apply orb_false_elim in Hresolved as [-> _]. reflexivity.
  - apply after_jniCall_promiseCount.
  - apply after_jniCall_trace.
  - apply after_jniCall_trace.
Qed.

Lemma Deferred_toJava_fast_path_witness :
  ∃ st',
    Deferred_toJava Example.env (JavaTypes.BoxedPrimitive JavaTypes.Integer)
      (JS_INT 42) false Example.st0
    = Done (JValue_ref (Some 100)) st'
    ∧ world st' = Example.world0
    ∧ promiseCount st' = 0%Z
    ∧ trace st'
      = [EvJniCall "createCompletableDeferred" sig_createCompletableDeferred []]
          ++ [EvJniCall "resolveDeferred" sig_resolveDeferred
                [ArgRef (Some 100); ArgValue (JValue_ref (Some 50))]]
    ∧ trace (deferred_created Example.env Example.st0)
      = [] ++ [EvJniCall "createCompletableDeferred"
                 sig_createCompletableDeferred []].
Proof.
  apply (Deferred_toJava_fast_path Example.env
           (JavaTypes.BoxedPrimitive JavaTypes.Integer) (JS_INT 42) false
           Example.st0
           (deferred_created Example.env Example.st0)
           (JValue_ref (Some 50))); reflexivity.
Defined.

(** The claim C1 fails where the component converter fails: the value 42 is
    not promise-shaped, the deferred is created, [resolveDeferred] is called
    once, and yet the handle is not returned: the pending host exception is
    rethrown and the empty [JValue] comes back. *)
Lemma Deferred_toJava_fast_path_no_handle :
  is_promise (JS_INT 42) (world Example.st0) = false
  ∧ created_deferred Example.env_conversion_fails Example.st0 = Some 100
  ∧ Deferred_toJava Example.env_conversion_fails
      (JavaTypes.BoxedPrimitive JavaTypes.Integer) (JS_INT 42) false
      Example.st0
    = Done JValue_empty
        (mkState (with_jni_pending true Example.world0) 0
           [EvJniCall "createCompletableDeferred"
              sig_createCompletableDeferred [];
            EvJniCall "resolveDeferred" sig_resolveDeferred
              [ArgRef (Some 100); ArgValue JValue_empty];
            EvRethrowJniException]).
Proof. repeat split. Qed.

(** The two early returns of the fast path: a host exception pending after
    [createCompletableDeferred], or after [resolveDeferred], is rethrown and
    the empty [JValue] is returned. *)
Lemma Deferred_toJava_create_failed env C v inScript st :
  jni_pending (world (deferred_created env st)) = true →
  Deferred_toJava env C v inScript st
  = Done JValue_empty
      (rethrown env (deferred_created env st)).
Proof.
  intros H. unfold Deferred_toJava, Deferred_toJava_with.
  rewrite bind_unfold, callJsBridgeObjectMethod_eq.
  fold (deferred_created env st).
  rewrite bind_unfold. unfold hasPendingJniException at 1, getW at 1.
  by rewrite H.
Qed.

Lemma Deferred_toJava_resolve_failed env C v inScript st st2 value :
  let resolved :=
    after_jniCall env "resolveDeferred" sig_resolveDeferred
      [ArgRef (created_deferred env st); ArgValue value] st2 in
  is_promise v (world st) = false →
  jni_pending (world (deferred_created env st)) = false →
  toJava env C v inScript (deferred_created env st) = Done value st2 →
  jni_pending (world resolved) = true →
  Deferred_toJava env C v inScript st
  = Done JValue_empty (rethrown env resolved).
Proof.
  intros resolved Hnot Hcreated Hconv Hresolved.
  unfold Deferred_toJava, Deferred_toJava_with.
  rewrite (Deferred_toJava_created env v st
             (fun javaDeferred isPromise =>
                if negb isPromise then _ else _)) by done.
  rewrite Hnot. cbn [negb].
  rewrite bind_unfold, Hconv, complete_and_return. cbv zeta.
  fold resolved. by rewrite Hresolved.
Qed.

(** ** The callback path *)

(** The part of [Deferred::toJava] between the test [isPromise] and the
    test of what [then] returned: the two callbacks are created, each with
    its payload, ["then"] is read, asserted to be a function and called
    with the two callbacks. *)
Definition call_then (env : Env) (javaDeferred : JniLocalRef)
    (m_componentType : JavaType) (v : JSValue) : M JSValue :=
  onPromiseFulfilledPayloadValue ←
    createCppPtrValue
      (PtrOnPromisePayload (mkOnPromisePayload javaDeferred m_componentType));
  onPromiseFulfilledValue ←
    JS_NewCFunctionData onPromiseFulfilled_fn onPromiseFulfilledPayloadValue;
  onPromiseRejectedPayloadValue ←
    createCppPtrValue
      (PtrOnPromisePayload (mkOnPromisePayload javaDeferred m_componentType));
  onPromiseRejectedValue ←
    JS_NewCFunctionData onPromiseRejected_fn onPromiseRejectedPayloadValue;
  thenValue ← JS_GetPropertyStr v "then";
  thenIsFunction ← JS_IsFunction thenValue;
  assert env thenIsFunction;;
  JS_Call env thenValue v [onPromiseFulfilledValue; onPromiseRejectedValue].

(** What [Deferred::toJava] does with the value [then] returned. *)
Definition after_then (env : Env) (javaDeferred : JniLocalRef) (ret : JSValue)
    : M JValue :=
  if JS_IsException ret then
    alog "Error while calling JSPromise.then()";;
    javaException ← getJavaExceptionForJsError env;
    callJsBridgeVoidMethod env "rejectDeferred" sig_rejectDeferred_Object
      [ArgRef javaDeferred; ArgRef javaException];;
    pending ← hasPendingJniException;
    if pending : bool then
      rethrowJniException env;;
      mret JValue_empty
    else
      mret (JValue_ref javaDeferred)
  else
    mret (JValue_ref javaDeferred).

(** [Deferred::toJava] on a value with a "then" property. *)
Lemma Deferred_toJava_callback_path env C v inScript st :
  is_promise v (world st) = true →
  jni_pending (world (deferred_created env st)) = false →
  Deferred_toJava env C v inScript st
  = (call_then env (created_deferred env st) C v
       ≫= after_then env (created_deferred env st))
      (deferred_created env st).
Proof.
  intros Hp Hcreated.
  unfold Deferred_toJava, Deferred_toJava_with.
  rewrite (Deferred_toJava_created env v st
             (fun javaDeferred isPromise =>
                if negb isPromise then _ else _)) by done.
  rewrite Hp. cbn [negb].
  unfold call_then, after_then.
  generalize (deferred_created env st) as s. intros s.
  unfold createCppPtrValue, JS_NewCFunctionData, JS_GetPropertyStr,
    JS_IsFunction, liftW, getW, assert, crash.
  rewrite !bind_unfold. cbn [alloc].
  repeat (rewrite !bind_unfold; cbn [alloc with_world world]).
  destruct (NDEBUG env || _); [| reflexivity].
  cbn. rewrite !bind_unfold. reflexivity.
Qed.

(** [Deferred::toJava] on a value without a "then" property. *)
Lemma Deferred_toJava_fast_path_eq env C v inScript st :
  is_promise v (world st) = false →
  jni_pending (world (deferred_created env st)) = false →
  Deferred_toJava env C v inScript st
  = (value ← toJava env C v inScript;
     callJsBridgeVoidMethod env "resolveDeferred" sig_resolveDeferred
       [ArgRef (created_deferred env st); ArgValue value];;
     pending ← hasPendingJniException;
     if pending : bool then rethrowJniException env;; mret JValue_empty
     else mret (JValue_ref (created_deferred env st)))
      (deferred_created env st).
Proof.
  intros Hp Hcreated.
  unfold Deferred_toJava, Deferred_toJava_with.
  rewrite (Deferred_toJava_created env v st
             (fun javaDeferred isPromise =>
                if negb isPromise then _ else _)) by done.
  by rewrite Hp.
Qed.

(** A host call that leaves nothing pending found nothing pending and left
    the world alone. *)
Lemma after_jniCall_quiet env name signature args st :
  jni_pending (world (after_jniCall env name signature args st)) = false →
  world (after_jniCall env name signature args st) = world st.
Proof.
  rewrite after_jniCall_world. cbn. intros H. rewrite H.
  apply orb_false_elim in H as [H _].
  destruct (world st) as [h n g e p]. cbn in *. by subst p.
Qed.

(** The host exception [Deferred::toJava] captures when [then] raised. *)
Definition captured_exception (env : Env) (st3 : State) : JniLocalRef :=
  (javaExceptionForJsError env (world st3)).1.

(** The state in which [rejectDeferred] is called when [then] raised: the
    failure is logged and the exception captured. *)
Definition then_failure_reported (env : Env) (st3 : State) : State :=
  with_world (javaExceptionForJsError env (world st3)).2
    (with_event (EvLog false "Error while calling JSPromise.then()") st3).

Lemma after_then_exception env d st3 :
  after_then env d JS_EXCEPTION st3
  = let st' :=
      after_jniCall env "rejectDeferred" sig_rejectDeferred_Object
        [ArgRef d; ArgRef (captured_exception env st3)]
        (then_failure_reported env st3) in
    if jni_pending (world st')
    then Done JValue_empty (rethrown env st')
    else Done (JValue_ref d) st'.
Proof.
  unfold after_then, captured_exception, then_failure_reported.
  cbn [JS_IsException].
  unfold alog, emit, getJavaExceptionForJsError, liftW.
  rewrite !bind_unfold. cbn [with_event world].
  destruct (javaExceptionForJsError env (world st3)) as [exc w] eqn:E.
  cbn [fst snd].
  by rewrite complete_and_return.
Qed.

(** C6, as the code has it.  If invoking the "then" capability raises
    synchronously ([JS_Call] returns the exception value), the failure is
    logged, the error is captured as a host exception, and [rejectDeferred]
    is called with it on the deferred, once, on the same call; provided no
    host exception is pending after that host call, the deferred handle is
    returned to the caller. *)
Theorem Deferred_toJava_then_raises
    (env : Env) (C : JavaType) (v : JSValue) (inScript : bool)
    (st st3 : State) (ret : JSValue) :
  let d := created_deferred env st in
  let exc := captured_exception env st3 in
  let reject :=
    EvJniCall "rejectDeferred" sig_rejectDeferred_Object
      [ArgRef d; ArgRef exc] in
  is_promise v (world st) = true →
  jni_pending (world (deferred_created env st)) = false →
  call_then env d C v (deferred_created env st) = Done ret st3 →
  JS_IsException ret = true →
  jni_pending
    (world (after_jniCall env "rejectDeferred" sig_rejectDeferred_Object
              [ArgRef d; ArgRef exc] (then_failure_reported env st3)))
  = false →
  ∃ st',
    Deferred_toJava env C v inScript st = Done (JValue_ref d) st'
    ∧ trace st'
      = trace st3
          ++ [EvLog false "Error while calling JSPromise.then()"; reject]
    ∧ world st' = (javaExceptionForJsError env (world st3)).2
    ∧ promiseCount st' = promiseCount st3.
Proof.
  intros d exc reject Hp Hcreated Hthen Hexc Hquiet.
  destruct ret; try discriminate Hexc.
  exists (after_jniCall env "rejectDeferred" sig_rejectDeferred_Object
            [ArgRef d; ArgRef exc] (then_failure_reported env st3)).
  split; [| repeat split ].
  - rewrite Deferred_toJava_callback_path by done.
    rewrite bind_unfold. fold d. rewrite Hthen.
    rewrite after_then_exception. cbv zeta. fold exc.
    by rewrite Hquiet.
  - rewrite after_jniCall_trace. unfold then_failure_reported. cbn.
    by rewrite <- app_assoc.
  - by rewrite after_jniCall_quiet.
  - by rewrite after_jniCall_promiseCount.
Qed.

(** When a host exception is pending after [rejectDeferred], it is rethrown
    and the handle is not returned. *)
Lemma Deferred_toJava_then_raises_reject_failed
    env C v inScript st st3 :
  let d := created_deferred env st in
  let st' :=
    after_jniCall env "rejectDeferred" sig_rejectDeferred_Object
      [ArgRef d; ArgRef (captured_exception env st3)]
      (then_failure_reported env st3) in
  is_promise v (world st) = true →
  jni_pending (world (deferred_created env st)) = false →
  call_then env d C v (deferred_created env st) = Done JS_EXCEPTION st3 →
  jni_pending (world st') = true →
  Deferred_toJava env C v inScript st = Done JValue_empty (rethrown env st').
Proof.
  intros d st' Hp Hcreated Hthen Hpend.
  rewrite Deferred_toJava_callback_path by done.
  rewrite bind_unfold. fold d. rewrite Hthen.
  rewrite after_then_exception. cbv zeta. fold st'. by rewrite Hpend.
Qed.

Lemma Deferred_toJava_then_raises_witness :
  let env := Example.env_then_raises in
  let v := JS_OBJECT 2 in
  let st3 :=
    final_state
      (call_then env (Some 100) JavaTypes.String v
         (deferred_created env Example.st1)) in
  ∃ st',
    Deferred_toJava env JavaTypes.String v false Example.st1
    = Done (JValue_ref (Some 100)) st'
    ∧ trace st'
      = trace st3
          ++ [EvLog false "Error while calling JSPromise.then()";
              EvJniCall "rejectDeferred" sig_rejectDeferred_Object
                [ArgRef (Some 100); ArgRef (Some 7)]]
    ∧ world st' = (javaExceptionForJsError env (world st3)).2
    ∧ promiseCount st' = promiseCount st3.
Proof.
  apply (Deferred_toJava_then_raises Example.env_then_raises JavaTypes.String
           (JS_OBJECT 2) false Example.st1
           (final_state
              (call_then Example.env_then_raises (Some 100) JavaTypes.String
                 (JS_OBJECT 2)
                 (deferred_created Example.env_then_raises Example.st1)))
           JS_EXCEPTION); reflexivity.
Defined.

(** The claim C6 fails where the host call [rejectDeferred] itself leaves a
    host exception pending: the value has a callable "then" that raises, the
    error is captured and [rejectDeferred] is called, and then the pending
    host exception is rethrown and the empty [JValue] is returned instead of
    the deferred handle. *)
Lemma Deferred_toJava_then_raises_no_handle :
  let env := Example.env_then_raises_host_throws "rejectDeferred" in
  let v := JS_OBJECT 2 in
  has_callable_then v Example.world1 = true
  ∧ created_deferred env Example.st1 = Some 100
  ∧ JS_IsException
      (engine_call env (JS_OBJECT 3) v [JS_OBJECT 6; JS_OBJECT 8]
         Example.world1).1 = true
  ∧ match Deferred_toJava env JavaTypes.String v false Example.st1 with
    | Done r st' =>
        r = JValue_empty
        ∧ jni_pending (world st') = true
        ∧ trace st'
          = [EvJniCall "createCompletableDeferred"
               sig_createCompletableDeferred [];
             EvJSCall (JS_OBJECT 3) v [JS_OBJECT 6; JS_OBJECT 8];
             EvLog false "Error while calling JSPromise.then()";
             EvJniCall "rejectDeferred" sig_rejectDeferred_Object
               [ArgRef (Some 100); ArgRef (Some 7)];
             EvRethrowJniException]
    | Crash _ => False
    end.
Proof. cbv zeta. repeat split. Qed.

(** ** Which path is taken (C5) *)

(** The two paths exclude each other, the test being a boolean: the fast
    path is taken exactly when [is_promise] is false, the callback path
    exactly when it is true (lemmas [Deferred_toJava_fast_path_eq] and
    [Deferred_toJava_callback_path]).  A value with a callable "then" is
    sent down the callback path. *)
Lemma has_callable_then_is_promise v w :
  has_callable_then v w = true → is_promise v w = true.
Proof. unfold has_callable_then. by intros [? _]%andb_prop. Qed.

(** C5 at the value [{ then: 42 }] (object 4 of the example world).  It has
    no callable "then", and yet it is sent down the callback path, not the
    fast path: with assertions enabled the run stops at
    [assert(JS_IsFunction(thenValue))], right after the deferred was created
    and the callbacks allocated; with assertions compiled out the number 42
    is called, the engine raises "not a function", and the deferred is
    rejected rather than resolved with the converted value. *)
Lemma Deferred_toJava_noncallable_then :
  let v := JS_OBJECT 4 in
  get_property v "then" Example.world1 = JS_INT 42
  ∧ has_callable_then v Example.world1 = false
  ∧ is_promise v Example.world1 = true
  ∧ crashed (Deferred_toJava Example.env JavaTypes.String v false Example.st1)
    = true
  ∧ trace (final_state
             (Deferred_toJava Example.env JavaTypes.String v false
                Example.st1))
    = [EvJniCall "createCompletableDeferred" sig_createCompletableDeferred []]
  ∧ match
      Deferred_toJava Example.env_NDEBUG JavaTypes.String v false Example.st1
    with
    | Done r st' =>
        r = JValue_ref (Some 100)
        ∧ trace st'
          = [EvJniCall "createCompletableDeferred"
               sig_createCompletableDeferred [];
             EvJSCall (JS_INT 42) v [JS_OBJECT 6; JS_OBJECT 8];
             EvLog false "Error while calling JSPromise.then()";
             EvJniCall "rejectDeferred" sig_rejectDeferred_Object
               [ArgRef (Some 100); ArgRef (Some 7)]]
    | Crash _ => False
    end.
Proof. cbv zeta. repeat split. Qed.

(** * Completion of a script promise: [Deferred::completeJsPromise] *)

(** The registry of pending bridges is the global object: the entry of a
    bridge id is the property of that name. *)
Definition registry_entry (strId : string) (w : World) : JSValue :=
  get_property (JS_OBJECT (js_global w)) strId w.

Definition slot_name (isFulfilled : bool) : string :=
  if isFulfilled then "resolve" else "reject".

(** A bridge is in place under [strId]: the entry is the promise object
    [promiseObj], whose hidden slot wraps the component converter [t] and
    whose resolve (or reject) slot holds the callable [capability]. *)
Definition bridge_in_place (strId : string) (isFulfilled : bool) (w : World)
    (promiseObj : JSValue) (t : JavaType) (capability : JSValue) : Prop :=
  registry_entry strId w = promiseObj
  ∧ JS_IsObject promiseObj = true
  ∧ JS_IsObject (get_property promiseObj PROMISE_COMPONENT_TYPE_PROP_NAME w)
    = true
  ∧ cpp_ptr (get_property promiseObj PROMISE_COMPONENT_TYPE_PROP_NAME w) w
    = Some (PtrJavaType t)
  ∧ get_property promiseObj (slot_name isFulfilled) w = capability
  ∧ is_function capability w = true.

(** What the entry point does once the bridge is found: convert, invoke,
    and log a failed invocation. *)
Definition settle (env : Env) (strId : string) (promiseObj : JSValue)
    (t : JavaType) (capability : JSValue) (value : JniLocalRef) : M unit :=
  promiseParam ← fromJava env t (JValue_ref value) false;
  ret ← JS_Call env capability promiseObj [promiseParam];
  if JS_IsException ret then
    alog ("Could not complete Promise with id " +:+ strId)
  else
    mret tt.

(** There is no other test on the way: whenever the bridge is in place, the
    entry point settles, whatever happened before. *)
Lemma completeJsPromise_settles env strId isFulfilled value st p t f :
  bridge_in_place strId isFulfilled (world st) p t f →
  Deferred_completeJsPromise env strId isFulfilled value st
  = settle env strId p t f value st.
Proof.
  intros (Hentry & Hobj & Hslot & Hptr & Hcap & Hfun).
  unfold Deferred_completeJsPromise, settle, registry_entry in *.
  unfold JS_GetGlobalObject, JS_GetPropertyStr, getCppPtr_JavaType,
    JS_IsFunction, getW.
  rewrite !bind_unfold. rewrite Hentry, Hobj. cbn [negb].
  rewrite !bind_unfold.
  destruct (get_property p PROMISE_COMPONENT_TYPE_PROP_NAME (world st))
    eqn:Hct; try discriminate Hslot.
  cbn [JS_IsNull JS_IsObject negb orb].
  rewrite !bind_unfold, Hptr.
  unfold mret at 1, M_ret at 1.
  rewrite !bind_unfold.
  unfold slot_name in Hcap, Hfun.
  by rewrite Hcap, Hfun.
Qed.

(** A run of [JS_Call] on a callable: the call is seen, the engine runs. *)
Lemma JS_Call_callable env f this args st :
  is_function f (world st) = true →
  JS_Call env f this args st
  = Done (engine_call env f this args (world st)).1
      (with_world (engine_call env f this args (world st)).2
         (with_event (EvJSCall f this args) st)).
Proof.
  intros Hf. unfold JS_Call, emit, JS_IsFunction, getW, liftW.
  rewrite !bind_unfold. cbn [with_event world]. rewrite Hf.
  cbn [with_event world].
  by destruct (engine_call env f this args (world st)).
Qed.

Lemma JS_Call_trace env f this args st :
  trace (final_state (JS_Call env f this args st))
  = trace st ++ [EvJSCall f this args].
Proof.
  unfold JS_Call, emit, JS_IsFunction, getW, liftW, JS_ThrowTypeError,
    JS_Throw, modifyW.
  rewrite !bind_unfold. cbn [with_event world].
  destruct (is_function f (world st)); cbn [with_event world].
  - by destruct (engine_call env f this args (world st)).
  - reflexivity.
Qed.

Lemma JS_Call_Done env f this args st :
  ∃ ret st', JS_Call env f this args st = Done ret st'.
Proof.
  unfold JS_Call, emit, JS_IsFunction, getW, liftW, JS_ThrowTypeError,
    JS_Throw, modifyW.
  rewrite !bind_unfold. cbn [with_event world].
  destruct (is_function f (world st)); cbn [with_event world].
  - destruct (engine_call env f this args (world st)); eauto.
  - eauto.
Qed.

(** ** The registry entry is never removed (C8) *)

(** C8.  The completion entry point never removes or rewrites the registry
    entry itself.  After any invocation, whether it completed, aborted with a
    log, or stopped on a wild pointer, the world (and with it the entry under
    the looked-up id) is either exactly the world it was called in, or
    exactly the world that converting the value and invoking the resolve or
    reject capability of the found bridge produced. *)
Theorem completeJsPromise_keeps_entry
    (env : Env) (strId : string) (isFulfilled : bool) (value : JniLocalRef)
    (st : State) :
  let final :=
    final_state (Deferred_completeJsPromise env strId isFulfilled value st) in
  (world final = world st
   ∧ registry_entry strId (world final) = registry_entry strId (world st))
  ∨ (∃ (t : JavaType) (capability : JSValue),
       bridge_in_place strId isFulfilled (world st)
         (registry_entry strId (world st)) t capability
       ∧ world final
         = world
             (final_state
                ((promiseParam ← fromJava env t (JValue_ref value) false;
                  JS_Call env capability (registry_entry strId (world st))
                    [promiseParam]) st))).
Proof.
  cbv zeta.
  assert (Hsame : ∀ w, w = world st →
            w = world st
            ∧ registry_entry strId w = registry_entry strId (world st))
    by (by intros w ->).
  destruct (JS_IsObject (registry_entry strId (world st))) eqn:Hobj.
  2:{ left. apply Hsame. unfold Deferred_completeJsPromise, registry_entry in *.
      unfold JS_GetGlobalObject, JS_GetPropertyStr, getW, alog_warn, emit.
      rewrite !bind_unfold. by rewrite Hobj. }
  destruct (JS_IsObject
              (get_property (registry_entry strId (world st))
                 PROMISE_COMPONENT_TYPE_PROP_NAME (world st))) eqn:Hslot.
  2:{ left. apply Hsame. unfold Deferred_completeJsPromise, registry_entry in *.
      unfold JS_GetGlobalObject, JS_GetPropertyStr, getW, alog_warn, emit.
      rewrite !bind_unfold. rewrite Hobj. cbn [negb].
      rewrite !bind_unfold. rewrite Hslot. by rewrite orb_true_r. }
  destruct (cpp_ptr
              (get_property (registry_entry strId (world st))
                 PROMISE_COMPONENT_TYPE_PROP_NAME (world st)) (world st))
    as [[payload | t] |] eqn:Hptr.
  1, 3: left; apply Hsame; unfold Deferred_completeJsPromise, registry_entry in *;
    unfold JS_GetGlobalObject, JS_GetPropertyStr, getCppPtr_JavaType, getW,
      crash;
    rewrite !bind_unfold; rewrite Hobj; cbn [negb];
    rewrite !bind_unfold;
    destruct (get_property _ PROMISE_COMPONENT_TYPE_PROP_NAME (world st));
    try discriminate Hslot; cbn [JS_IsNull JS_IsObject negb orb];
    rewrite !bind_unfold; by rewrite Hptr.
  destruct (is_function
              (get_property (registry_entry strId (world st))
                 (slot_name isFulfilled) (world st)) (world st)) eqn:Hfun.
  - right. exists t, (get_property (registry_entry strId (world st))
                        (slot_name isFulfilled) (world st)).
    split; [done |].
    rewrite (completeJsPromise_settles env strId isFulfilled value st
               (registry_entry strId (world st)) t
               (get_property (registry_entry strId (world st))
                  (slot_name isFulfilled) (world st))) by done.
    unfold settle. rewrite !bind_unfold.
    destruct (fromJava env t (JValue_ref value) false st) as [param s1 | s1];
      [| reflexivity].
    rewrite !bind_unfold.
    destruct (JS_Call_Done env
                (get_property (registry_entry strId (world st))
                   (slot_name isFulfilled) (world st))
                (registry_entry strId (world st)) [param] s1)
      as (ret & s2 & ->).
    cbn [final_state]. by destruct (JS_IsException ret).
  - left. apply Hsame. unfold Deferred_completeJsPromise, registry_entry in *.
    unfold JS_GetGlobalObject, JS_GetPropertyStr, getCppPtr_JavaType,
      JS_IsFunction, getW, alog, emit.
    rewrite !bind_unfold; rewrite Hobj; cbn [negb];
    rewrite !bind_unfold.
    destruct (get_property _ PROMISE_COMPONENT_TYPE_PROP_NAME (world st));
    try discriminate Hslot; cbn [JS_IsNull JS_IsObject negb orb].
    rewrite !bind_unfold. rewrite Hptr.
    unfold mret at 1, M_ret at 1. rewrite !bind_unfold.
    unfold slot_name in Hfun. by rewrite Hfun.
Qed.

(** Neither branch of [JS_Call] writes to the heap by itself: with an
    engine and converters that leave the entry alone, so does the entry
    point. *)
Lemma completeJsPromise_entry_unchanged env strId isFulfilled value st :
  (∀ t, registry_entry strId
          (world (final_state (fromJava env t (JValue_ref value) false st)))
        = registry_entry strId (world st)) →
  (∀ f this args w,
     registry_entry strId (engine_call env f this args w).2
     = registry_entry strId w) →
  registry_entry strId
    (world (final_state
              (Deferred_completeJsPromise env strId isFulfilled value st)))
  = registry_entry strId (world st).
Proof.
  intros Hconv Hcall.
  destruct (completeJsPromise_keeps_entry env strId isFulfilled value st)
    as [[_ H] | (t & f & _ & H)]; [exact H |].
  cbv zeta in H. rewrite H. rewrite bind_unfold.
  specialize (Hconv t).
  destruct (fromJava env t (JValue_ref value) false st) as [param s1 | s1];
    [| exact Hconv].
  cbn [final_state] in Hconv. rewrite <- Hconv.
  unfold JS_Call, emit, JS_IsFunction, getW, liftW, JS_ThrowTypeError,
    JS_Throw, modifyW.
  rewrite !bind_unfold. cbn [with_event world].
  destruct (is_function f (world s1)); cbn [with_event world].
  - specialize (Hcall f (registry_entry strId (world s1)) [param] (world s1)).
    by destruct (engine_call env f _ [param] (world s1)).
  - reflexivity.
Qed.

(** ** A second completion (C2) *)

(** C2, as the code has it.  A second invocation of the completion entry
    point with the same bridge id is not a no-op.  The entry point keeps no
    record of a completion and never removes the entry: whenever the bridge
    is still in place after the first call, the second call converts the value
    again and invokes the same resolve or reject capability again; it logs
    only if that invocation raises.  The registry entry is the same before
    and after, and the entry point returns normally. *)
Theorem completeJsPromise_second_call
    (env : Env) (strId : string) (isFulfilled : bool)
    (value value' : JniLocalRef) (st st1 st2 : State)
    (promiseObj capability promiseParam : JSValue) (t : JavaType) :
  bridge_in_place strId isFulfilled (world st) promiseObj t capability →
  Deferred_completeJsPromise env strId isFulfilled value st = Done tt st1 →
  bridge_in_place strId isFulfilled (world st1) promiseObj t capability →
  fromJava env t (JValue_ref value') false st1 = Done promiseParam st2 →
  ∃ (ret : JSValue) (st3 st' : State),
    JS_Call env capability promiseObj [promiseParam] st2 = Done ret st3
    ∧ trace st3 = trace st2 ++ [EvJSCall capability promiseObj [promiseParam]]
    ∧ Deferred_completeJsPromise env strId isFulfilled value' st1
      = Done tt st'
    ∧ world st' = world st3
    ∧ trace st'
      = trace st3
          ++ (if JS_IsException ret
              then [EvLog false
                      ("Could not complete Promise with id " +:+ strId)]
              else [])
    ∧ registry_entry strId (world st1) = registry_entry strId (world st)
    ∧ JS_IsObject (registry_entry strId (world st1)) = true.
Proof.
  intros Hbridge Hfirst Hbridge1 Hconv.
  destruct (JS_Call_Done env capability promiseObj [promiseParam] st2)
    as (ret & st3 & Hcall).
  exists ret, st3.
  exists (if JS_IsException ret
          then with_event
                 (EvLog false ("Could not complete Promise with id " +:+ strId))
                 st3
          else st3).
  split; [exact Hcall |]. split.
  { pose proof (JS_Call_trace env capability promiseObj [promiseParam] st2)
      as Htr. by rewrite Hcall in Htr. }
  split.
  { rewrite (completeJsPromise_settles env strId isFulfilled value' st1
               promiseObj t capability) by done.
    unfold settle. rewrite bind_unfold, Hconv, bind_unfold, Hcall.
    by destruct (JS_IsException ret). }
  split; [by destruct (JS_IsException ret) |].
  split.
  { destruct (JS_IsException ret); [reflexivity |]. by rewrite app_nil_r. }
  destruct Hbridge as (He & Ho & _), Hbridge1 as (He1 & _).
  split; [by rewrite He, He1 | by rewrite He1].
Qed.

Lemma completeJsPromise_second_call_witness :
  ∃ (ret : JSValue) (st3 st' : State),
    JS_Call Example.env (JS_OBJECT 6) (JS_OBJECT 2) [JS_INT 42]
      Example.st_completed_once = Done ret st3
    ∧ trace st3
      = trace Example.st_completed_once
          ++ [EvJSCall (JS_OBJECT 6) (JS_OBJECT 2) [JS_INT 42]]
    ∧ Deferred_completeJsPromise Example.env Example.bridge_id true (Some 1)
        Example.st_completed_once = Done tt st'
    ∧ world st' = world st3
    ∧ trace st'
      = trace st3
          ++ (if JS_IsException ret
              then [EvLog false
                      ("Could not complete Promise with id "
                         +:+ Example.bridge_id)]
              else [])
    ∧ registry_entry Example.bridge_id (world Example.st_completed_once)
      = registry_entry Example.bridge_id (world Example.st_bridge)
    ∧ JS_IsObject
        (registry_entry Example.bridge_id (world Example.st_completed_once))
      = true.
Proof.
  apply (completeJsPromise_second_call Example.env Example.bridge_id true
           (Some 1) (Some 1) Example.st_bridge Example.st_completed_once
           Example.st_completed_once (JS_OBJECT 2) (JS_OBJECT 6) (JS_INT 42)
           (JavaTypes.BoxedPrimitive JavaTypes.Integer));
    repeat split.
Defined.

(** The claim C2 fails on a bridge that [Deferred::fromJava] set up and that
    was completed once: the second completion with the same id finds the
    entry again, logs nothing, and invokes the resolve capability (object 6)
    of the promise object (object 2) a second time. *)
Lemma completeJsPromise_twice_invokes_twice :
  registry_entry Example.bridge_id (world Example.st_bridge) = JS_OBJECT 2
  ∧ get_property (JS_OBJECT 2) "resolve" (world Example.st_bridge)
    = JS_OBJECT 6
  ∧ trace Example.st_completed_once
    = trace Example.st_bridge
        ++ [EvJSCall (JS_OBJECT 6) (JS_OBJECT 2) [JS_INT 42]]
  ∧ trace Example.st_completed_twice
    = trace Example.st_completed_once
        ++ [EvJSCall (JS_OBJECT 6) (JS_OBJECT 2) [JS_INT 42]]
  ∧ world Example.st_completed_twice = world Example.st_completed_once.
Proof. repeat split. Qed.

(** * Bridge ids: [Deferred::fromJava] *)

(** The name under which the [n]-th promise object is registered. *)
Definition bridge_name (n : Z) : string :=
  PROMISE_OBJECT_GLOBAL_NAME_PREFIX +:+ to_string n.

(** The bridge ids handed to the host: the names passed to
    [setUpJsPromise], oldest first. *)
Definition issued_id (e : Event) : option string :=
  match e with
  | EvJniCall method _ (ArgString name :: _) =>
      if decide (method = "setUpJsPromise") then Some name else None
  | _ => None
  end.

Definition issued_ids (tr : list Event) : list string := omap issued_id tr.

(** A sequence of calls of [Deferred::fromJava], each with its converter,
    its host value and its [inScript] flag.  A crash ends the process. *)
Fixpoint run_fromJava (env : Env) (calls : list (JavaType * JValue * bool))
    (st : State) : State :=
  match calls with
  | [] => st
  | (t, value, inScript) :: rest =>
      match Deferred_fromJava env t value inScript st with
      | Done _ st' => run_fromJava env rest st'
      | Crash st' => st'
      end
  end.

Lemma wrap_int_id n : (INT_MIN ≤ n ≤ INT_MAX)%Z → wrap_int n = n.
Proof.
  unfold wrap_int, INT_MIN, INT_MAX. intros H.
  rewrite Z.mod_small; lia.
Qed.

Lemma bridge_name_inj : Inj (=) (=) bridge_name.
Proof.
  intros m n H. unfold bridge_name, to_string in H.
  apply (inj (String.app PROMISE_OBJECT_GLOBAL_NAME_PREFIX)) in H.
  by apply (inj pretty) in H.
Qed.

Lemma issued_ids_app tr1 tr2 :
  issued_ids (tr1 ++ tr2) = issued_ids tr1 ++ issued_ids tr2.
Proof. apply omap_app. Qed.

(** The primitives that act on the world only, one step each. *)
Lemma liftW_bind {A B} (f : World → A * World) (k : A → M B) st :
  (liftW f ≫= k) st = k (f (world st)).1 (with_world (f (world st)).2 st).
Proof.
  rewrite bind_unfold. unfold liftW. by destruct (f (world st)).
Qed.

Lemma getW_bind {A B} (f : World → A) (k : A → M B) st :
  (getW f ≫= k) st = k (f (world st)) st.
Proof. reflexivity. Qed.

Lemma modifyW_bind {B} (f : World → World) (k : unit → M B) st :
  (modifyW f ≫= k) st = k tt (with_world (f (world st)) st).
Proof. reflexivity. Qed.

Lemma emit_bind {B} (e : Event) (k : unit → M B) st :
  (emit e ≫= k) st = k tt (with_event e st).
Proof. reflexivity. Qed.

(** [JS_CallConstructor] always returns, leaves the counter alone and
    hands no id to the host. *)
Lemma JS_CallConstructor_frame env ctor args st :
  ∃ ret st',
    JS_CallConstructor env ctor args st = Done ret st'
    ∧ promiseCount st' = promiseCount st
    ∧ issued_ids (trace st') = issued_ids (trace st).
Proof.
  unfold JS_CallConstructor, JS_IsFunction.
  rewrite emit_bind, getW_bind.
  set (st1 := with_event _ st).
  assert (Ht : issued_ids (trace st1) = issued_ids (trace st)).
  { unfold st1. cbn [trace with_event]. rewrite issued_ids_app. cbn.
    by rewrite app_nil_r. }
  destruct (is_function ctor (world st1)).
  - unfold liftW. destruct (engine_construct env ctor args (world st1)).
    eexists _, _. split; [reflexivity |]. by split.
  - eexists _, _. split; [reflexivity |]. by split.
Qed.

(** The end of [Deferred::fromJava], from the assertion on the new promise
    on: the counter is left alone and the id is handed to the host, unless
    the assertion stops the process before. *)
Lemma Deferred_fromJava_end env promiseInstance name jDeferred st :
  let o :=
    (assert env (JS_IsObject promiseInstance);;
     callJsBridgeVoidMethod env "setUpJsPromise" sig_setUpJsPromise
       [ArgString name; ArgRef jDeferred];;
     pending ← hasPendingJniException;
     if pending : bool then rethrowJniException env;; mret JS_EXCEPTION
     else mret promiseInstance) st in
  promiseCount (final_state o) = promiseCount st
  ∧ issued_ids (trace (final_state o))
    = issued_ids (trace st) ++ (if crashed o then [] else [name]).
Proof.
  intros o.
  assert (Ho : o = if NDEBUG env || JS_IsObject promiseInstance
                   then
                     let s' :=
                       after_jniCall env "setUpJsPromise" sig_setUpJsPromise
                         [ArgString name; ArgRef jDeferred] st in
                     if jni_pending (world s')
                     then Done JS_EXCEPTION (rethrown env s')
                     else Done promiseInstance s'
                   else Crash st).
  { unfold o, assert.
    destruct (NDEBUG env || JS_IsObject promiseInstance); [| reflexivity].
    rewrite bind_unfold. unfold mret at 1, M_ret at 1. cbv beta iota.
    rewrite bind_unfold, callJsBridgeVoidMethod_eq. cbv beta iota zeta.
    unfold hasPendingJniException. rewrite getW_bind.
    by destruct (jni_pending _). }
  rewrite Ho. clear Ho o.
  destruct (NDEBUG env || JS_IsObject promiseInstance).
  2:{ cbn. by rewrite app_nil_r. }
  cbv zeta.
  set (s' := after_jniCall _ _ _ _ st).
  assert (Hc' : promiseCount s' = promiseCount st)
    by (unfold s'; by rewrite after_jniCall_promiseCount).
  assert (Ht' : issued_ids (trace s') = issued_ids (trace st) ++ [name]).
  { unfold s'. by rewrite after_jniCall_trace, issued_ids_app. }
  destruct (jni_pending (world s')).
  - unfold rethrown.
    cbn [final_state crashed promiseCount trace with_world with_event].
    split; [exact Hc' |].
    rewrite issued_ids_app, Ht'. cbn. by rewrite app_nil_r.
  - cbn [final_state crashed]. by split.
Qed.

(** [Deferred::fromJava] on a host deferred that is not null, up to the
    assertion on the new promise: the counter was incremented once and no id
    was handed to the host yet. *)
Lemma Deferred_fromJava_nonnull env t value inScript st jDeferred :
  getLocalRef value = Some jDeferred →
  ∃ promiseInstance s1,
    promiseCount s1 = wrap_int (promiseCount st + 1)
    ∧ issued_ids (trace s1) = issued_ids (trace st)
    ∧ Deferred_fromJava env t value inScript st
      = (assert env (JS_IsObject promiseInstance);;
         callJsBridgeVoidMethod env "setUpJsPromise" sig_setUpJsPromise
           [ArgString (bridge_name (wrap_int (promiseCount st + 1)));
            ArgRef (Some jDeferred)];;
         pending ← hasPendingJniException;
         if pending : bool then rethrowJniException env;; mret JS_EXCEPTION
         else mret promiseInstance) s1.
Proof.
  intros Hval. unfold Deferred_fromJava. rewrite Hval. cbn [isNull].
  unfold JS_NewObject, createCppPtrValue, JS_SetPropertyStr,
    JS_GetGlobalObject, JS_NewCFunctionData, JS_GetPropertyStr.
  rewrite !liftW_bind, modifyW_bind.
  rewrite bind_unfold. unfold incr_promiseCount at 1.
  rewrite getW_bind, modifyW_bind, liftW_bind, getW_bind.
  rewrite bind_unfold.
  match goal with
  | |- context [JS_CallConstructor env ?c ?a ?s] =>
      destruct (JS_CallConstructor_frame env c a s) as (r & s1 & -> & Hc & Ht)
  end.
  cbn [promiseCount trace with_world with_promiseCount] in Hc, Ht.
  exists r, s1. split; [exact Hc |]. split; [exact Ht |].
  cbn [promiseCount trace with_world with_promiseCount]. reflexivity.
Qed.

(** One call: a null deferred changes nothing; any other call increments
    the counter once and hands exactly the new id to the host, unless the
    process stops at the assertion before that. *)
Lemma Deferred_fromJava_step env t value inScript st :
  let o := Deferred_fromJava env t value inScript st in
  let n := wrap_int (promiseCount st + 1) in
  match getLocalRef value with
  | None => o = Done JS_NULL st
  | Some _ =>
      promiseCount (final_state o) = n
      ∧ issued_ids (trace (final_state o))
        = issued_ids (trace st)
            ++ (if crashed o then [] else [bridge_name n])
  end.
Proof.
  cbv zeta.
  destruct (getLocalRef value) as [jDeferred |] eqn:Hval.
  2:{ unfold Deferred_fromJava. by rewrite Hval. }
  destruct (Deferred_fromJava_nonnull env t value inScript st jDeferred Hval)
    as (r & s1 & Hc & Ht & ->).
  pose proof (Deferred_fromJava_end env r
                (bridge_name (wrap_int (promiseCount st + 1)))
                (Some jDeferred) s1) as H.
  cbv zeta in H. by rewrite Hc, Ht in H.
Qed.

(** The ids handed out so far are the names of the numbers [ks], in
    strictly increasing order and none beyond the counter. *)
Definition ids_in_order (st : State) (ks : list Z) : Prop :=
  issued_ids (trace st) = map bridge_name ks
  ∧ StronglySorted Z.lt ks
  ∧ Forall (λ k, (0 < k ≤ promiseCount st)%Z) ks.

(** The state of a process that has not called [Deferred::fromJava] yet. *)
Lemma ids_in_order_start st :
  promiseCount st = 0%Z → issued_ids (trace st) = [] → ids_in_order st [].
Proof.
  intros _ Hids. split; [exact Hids |]. split; constructor.
Qed.

Lemma StronglySorted_snoc (ks : list Z) (k : Z) :
  StronglySorted Z.lt ks → Forall (λ j, (j < k)%Z) ks →
  StronglySorted Z.lt (ks ++ [k]).
Proof.
  intros Hs Hlt. apply StronglySorted_app.
  split; [| split; [exact Hs | repeat constructor]].
  intros x1 x2 H1 ->%list_elem_of_singleton.
  by eapply Forall_forall in Hlt.
Qed.

Lemma StronglySorted_lt_NoDup (ks : list Z) :
  StronglySorted Z.lt ks → NoDup ks.
Proof.
  induction 1 as [| k ks _ IH Hall]; constructor; [| exact IH].
  intros Hin. eapply Forall_forall in Hall; [| exact Hin]. lia.
Qed.

(** One call keeps the order as long as the counter does not overflow. *)
Lemma Deferred_fromJava_keeps_order env t value inScript st ks :
  ids_in_order st ks →
  (0 ≤ promiseCount st < INT_MAX)%Z →
  let st' := final_state (Deferred_fromJava env t value inScript st) in
  ∃ new,
    ids_in_order st' (ks ++ new)
    ∧ Forall (λ k, (promiseCount st < k)%Z) new
    ∧ (promiseCount st ≤ promiseCount st' ≤ promiseCount st + 1)%Z.
Proof.
  intros (Hids & Hsorted & Hbound) Hrange st'.
  pose proof (Deferred_fromJava_step env t value inScript st) as Hstep.
  cbv zeta in Hstep. fold st' in Hstep.
  destruct (getLocalRef value).
  2:{ exists []. unfold st'. rewrite Hstep. cbn [final_state].
      rewrite app_nil_r. repeat split; try done; lia. }
  destruct Hstep as [Hc Ht].
  rewrite wrap_int_id in Hc, Ht by (unfold INT_MIN, INT_MAX in *; lia).
  destruct (crashed _).
  - exists []. rewrite !app_nil_r in *.
    split; [| split; [constructor | lia]].
    split; [by rewrite Ht |]. split; [exact Hsorted |].
    eapply Forall_impl; [exact Hbound |]. intros k Hk. cbn in Hk. lia.
  - exists [(promiseCount st + 1)%Z].
    split; [| split; [repeat constructor; lia | lia]].
    split; [by rewrite Ht, Hids, map_app |]. split.
    + apply StronglySorted_snoc; [exact Hsorted |].
      eapply Forall_impl; [exact Hbound |]. intros k Hk. cbn in Hk. lia.
    + apply Forall_app. split.
      * eapply Forall_impl; [exact Hbound |]. intros k Hk. cbn in Hk. lia.
      * repeat constructor; lia.
Qed.

(** C7, as the code has it.  For every sequence of calls of
    [Deferred::fromJava] that does not take the 32-bit counter beyond
    [INT_MAX], the bridge ids handed out are the names of strictly
    increasing numbers, each greater than the counter before the sequence;
    with the ids handed out before they are pairwise distinct, so no id is
    used twice, whether or not its bridge is still pending. *)
Theorem fromJava_ids_distinct_increasing
    (env : Env) (calls : list (JavaType * JValue * bool)) (st : State)
    (ks : list Z) :
  ids_in_order st ks →
  (0 ≤ promiseCount st)%Z →
  (promiseCount st + Z.of_nat (length calls) ≤ INT_MAX)%Z →
  let st' := run_fromJava env calls st in
  ∃ new : list Z,
    issued_ids (trace st') = map bridge_name (ks ++ new)
    ∧ StronglySorted Z.lt (ks ++ new)
    ∧ Forall (λ k, (promiseCount st < k ≤ promiseCount st')%Z) new
    ∧ NoDup (issued_ids (trace st'))
    ∧ (promiseCount st ≤ promiseCount st'
       ≤ promiseCount st + Z.of_nat (length calls))%Z.
Proof.
  revert st ks.
  induction calls as [| [[t value] inScript] calls IH];
    intros st ks Hord Hpos Hmax st'.
  - exists []. unfold st'. cbn [run_fromJava].
    destruct Hord as (Hids & Hsorted & Hbound).
    rewrite app_nil_r.
    split; [exact Hids |]. split; [exact Hsorted |].
    split; [constructor |]. split.
    + rewrite Hids. apply NoDup_fmap; [apply bridge_name_inj |].
      by apply StronglySorted_lt_NoDup.
    + cbn. lia.
  - cbn [length] in Hmax.
    assert (Hrange : (0 ≤ promiseCount st < INT_MAX)%Z) by lia.
    destruct (Deferred_fromJava_keeps_order env t value inScript st ks
                Hord Hrange) as (new1 & Hord1 & Hnew1 & Hc1).
    unfold st'. cbn [run_fromJava length].
    destruct (Deferred_fromJava env t value inScript st) as [r s1 | s1] eqn:E;
      cbn [final_state] in Hord1, Hc1.
    + assert (Hpos1 : (0 ≤ promiseCount s1)%Z) by lia.
      assert (Hmax1 : (promiseCount s1 + Z.of_nat (length calls)
                       ≤ INT_MAX)%Z) by lia.
      destruct (IH s1 (ks ++ new1) Hord1 Hpos1 Hmax1)
        as (new2 & Hids & Hs & Hb & Hnd & Hc).
      exists (new1 ++ new2). rewrite app_assoc.
      split; [exact Hids |]. split; [exact Hs |].
      split; [| split; [exact Hnd | lia]].
      apply Forall_app. split.
      * destruct Hord1 as (_ & _ & Hb1).
        apply Forall_app in Hb1 as [_ Hb1].
        apply Forall_forall. intros k Hk.
        eapply Forall_forall in Hnew1; [| exact Hk].
        eapply Forall_forall in Hb1; [| exact Hk].
        cbn in *. lia.
      * eapply Forall_impl; [exact Hb |]. intros k Hk. cbn in *. lia.
    + destruct Hord1 as (Hids & Hsorted & Hbound).
      exists new1.
      split; [exact Hids |]. split; [exact Hsorted |].
      split; [| split; [| lia]].
      * apply Forall_app in Hbound as [_ Hb1].
        apply Forall_forall. intros k Hk.
        eapply Forall_forall in Hnew1; [| exact Hk].
        eapply Forall_forall in Hb1; [| exact Hk].
        cbn in *. lia.
      * rewrite Hids. apply NoDup_fmap; [apply bridge_name_inj |].
        by apply StronglySorted_lt_NoDup.
Qed.

Lemma fromJava_ids_distinct_increasing_witness :
  let calls :=
    [ (JavaTypes.String, JValue_ref (Some 9), false);
      (JavaTypes.String, JValue_ref None, false);
      (JavaTypes.Object, JValue_ref (Some 8), true) ] in
  let st' := run_fromJava Example.env calls Example.st0 in
  ∃ new : list Z,
    issued_ids (trace st') = map bridge_name ([] ++ new)
    ∧ StronglySorted Z.lt ([] ++ new)
    ∧ Forall (λ k, (promiseCount Example.st0 < k ≤ promiseCount st')%Z) new
    ∧ NoDup (issued_ids (trace st'))
    ∧ (promiseCount Example.st0 ≤ promiseCount st'
       ≤ promiseCount Example.st0 + Z.of_nat (length calls))%Z.
Proof.
  apply (fromJava_ids_distinct_increasing Example.env
           [ (JavaTypes.String, JValue_ref (Some 9), false);
             (JavaTypes.String, JValue_ref None, false);
             (JavaTypes.Object, JValue_ref (Some 8), true) ]
           Example.st0 []).
  - apply ids_in_order_start; reflexivity.
  - reflexivity.
  - vm_compute. discriminate.
Defined.

(** With assertions compiled out [Deferred::fromJava] always returns. *)
Lemma Deferred_fromJava_returns env t value inScript st :
  NDEBUG env = true →
  crashed (Deferred_fromJava env t value inScript st) = false.
Proof.
  intros Hn.
  destruct (getLocalRef value) as [jDeferred |] eqn:Hval.
  2:{ unfold Deferred_fromJava. by rewrite Hval. }
  destruct (Deferred_fromJava_nonnull env t value inScript st jDeferred Hval)
    as (r & s1 & _ & _ & ->).
  unfold assert. rewrite Hn. cbn [orb].
  rewrite bind_unfold. unfold mret at 1, M_ret at 1. cbv beta iota.
  rewrite bind_unfold, callJsBridgeVoidMethod_eq. cbv beta iota.
  unfold hasPendingJniException. rewrite getW_bind.
  by destruct (jni_pending _).
Qed.

(** [n] calls on host deferreds that are not null advance the counter by
    [n], up to [INT_MAX]. *)
Lemma run_fromJava_counts env t (d : jobject) inScript (n : nat) st :
  NDEBUG env = true →
  (0 ≤ promiseCount st)%Z →
  (promiseCount st + Z.of_nat n ≤ INT_MAX)%Z →
  promiseCount
    (run_fromJava env (replicate n (t, JValue_ref (Some d), inScript)) st)
  = (promiseCount st + Z.of_nat n)%Z.
Proof.
  intros Hn. revert st.
  induction n as [| n IH]; intros st Hpos Hmax.
  - cbn. lia.
  - cbn [replicate run_fromJava].
    pose proof (Deferred_fromJava_step env t (JValue_ref (Some d)) inScript st)
      as Hstep.
    pose proof (Deferred_fromJava_returns env t (JValue_ref (Some d))
                  inScript st Hn) as Hret.
    cbv zeta in Hstep. cbn [getLocalRef] in Hstep. destruct Hstep as [Hc _].
    destruct (Deferred_fromJava env t (JValue_ref (Some d)) inScript st)
      as [r s1 | s1]; [| discriminate Hret].
    cbn [final_state] in Hc.
    rewrite wrap_int_id in Hc by (unfold INT_MIN, INT_MAX in *; lia).
    rewrite IH by lia. lia.
Qed.

(** The counter of a long-lived process reaches [INT_MAX - 1]. *)
Lemma counter_reaches_INT_MAX_minus_1 :
  promiseCount
    (run_fromJava Example.env_NDEBUG
       (replicate (Z.to_nat 2147483646)
          (JavaTypes.String, JValue_ref (Some 9), false))
       Example.st0)
  = 2147483646%Z.
Proof.
  rewrite run_fromJava_counts.
  - change (promiseCount Example.st0) with 0%Z. lia.
  - reflexivity.
  - change (promiseCount Example.st0) with 0%Z. lia.
  - change (promiseCount Example.st0) with 0%Z. unfold INT_MAX. lia.
Qed.

(** The claim C7 fails at the end of the range of the counter: in a state
    whose counter is [INT_MAX - 1], two calls of [Deferred::fromJava] hand
    out the id of 2147483647 and then the id of -2147483648, which is not
    greater. *)
Lemma fromJava_ids_wrap_around :
  let call := (JavaTypes.String, JValue_ref (Some 9), false) in
  let st := mkState Example.world0 2147483646 [] in
  let st' := run_fromJava Example.env_NDEBUG [call; call] st in
  issued_ids (trace st')
  = [ "__javaTypes_deferred_promiseobject_2147483647";
      "__javaTypes_deferred_promiseobject_-2147483648" ]
  ∧ issued_ids (trace st')
    = [bridge_name 2147483647; bridge_name (-2147483648)]
  ∧ promiseCount st' = (-2147483648)%Z
  ∧ (-2147483648 <? 2147483647)%Z = true.
Proof. cbv zeta. repeat split; vm_compute; reflexivity. Qed.
